(** * Persistence subjects of the ORM: a shallow embedding of
      [src/persistence/Subject.ts] and the properties of its change tracking.

    The file follows the class top to bottom: JavaScript values and strict
    equality, the metadata descriptors the class reads, the [Subject] record
    with its accessors, [validate], and the two diff filters
    [buildDiffColumns] and [buildDiffRelationalColumns]. *)

From Stdlib Require Import List String Ascii Bool ZArith Lia PrimFloat.
Import ListNotations.
Local Open Scope string_scope.
#[local] Set Warnings "-register-all".

(* ------------------------------------------------------------------------- *)
(** ** JavaScript values *)
(* ------------------------------------------------------------------------- *)

(** Values that an entity property can hold. Primitives are compared by
    content; a [VDate] or a [VObject] lives at an address [ref] and is
    compared by that address only, as [===] does. The diff code never
    mutates an entity, so the content of an object travels with its
    address. A number is an IEEE double, as in the language. *)
Inductive value : Type :=
| VUndefined
| VNull
| VBoolean (b : bool)
| VNumber (n : float)
| VString (s : string)
| VDate (ref : nat) (time : Z)
| VObject (ref : nat) (props : list (string * value)).

(** [ObjectLiteral]: an object with string keys; an entity or a database
    snapshot. *)
Record ObjectLiteral : Type := mkObject {
  ol_ref : nat;
  ol_props : list (string * value)
}.

Definition value_of (o : ObjectLiteral) : value :=
  VObject (ol_ref o) (ol_props o).

(** What a throw carries: [new Error(message)], or the [TypeError] the
    runtime raises on a property read from [null] or [undefined]. *)
Inductive exn : Type :=
| Error (message : string)
| TypeError.

(** Outcome of evaluating a piece of code: a value or a throw. *)
Inductive res (A : Type) : Type :=
| Ok (a : A)
| Throw (e : exn).
Arguments Ok {A} a.
Arguments Throw {A} e.

Definition bind {A B : Type} (m : res A) (k : A -> res B) : res B :=
  match m with
  | Ok a => k a
  | Throw e => Throw e
  end.

Notation "x <- m ;; k" := (bind m (fun x => k))
  (at level 61, m at next level, right associativity).

(** [Array.prototype.filter] with a callback that may throw: the elements
    are visited in order and the first throw leaves the whole call. *)
Fixpoint filterM {A : Type} (f : A -> res bool) (l : list A) : res (list A) :=
  match l with
  | [] => Ok []
  | x :: t =>
      b <- f x ;;
      r <- filterM f t ;;
      Ok (if b then x :: r else r)
  end.

(** Own data property [o[k]] of an object: the first binding of [k], or
    [undefined]. Members inherited from a prototype are not data of the
    entity and are not modelled. *)
Fixpoint lookup (props : list (string * value)) (k : string) : value :=
  match props with
  | [] => VUndefined
  | (k', v) :: t => if String.eqb k' k then v else lookup t k
  end.

Definition get (o : ObjectLiteral) (k : string) : value :=
  lookup (ol_props o) k.

(** [v[k]] for an arbitrary value: a [TypeError] on [null] and [undefined],
    the own property on an object, [undefined] on a primitive or a date
    (whose only members are inherited ones). *)
Definition get_prop (v : value) (k : string) : res value :=
  match v with
  | VUndefined | VNull => Throw TypeError
  | VObject _ props => Ok (lookup props k)
  | _ => Ok VUndefined
  end.

(** [a === b]. *)
Definition strict_equals (a b : value) : bool :=
  match a, b with
  | VUndefined, VUndefined => true
  | VNull, VNull => true
  | VBoolean x, VBoolean y => Bool.eqb x y
  | VNumber x, VNumber y => PrimFloat.eqb x y
  | VString x, VString y => String.eqb x y
  | VDate r _, VDate r' _ => Nat.eqb r r'
  | VObject r _, VObject r' _ => Nat.eqb r r'
  | VDate r _, VObject r' _ => Nat.eqb r r'
  | VObject r _, VDate r' _ => Nat.eqb r r'
  | _, _ => false
  end.

Definition is_undefined (v : value) : bool :=
  match v with VUndefined => true | _ => false end.

Definition is_null (v : value) : bool :=
  match v with VNull => true | _ => false end.

(** [v === undefined || v === null]. *)
Definition is_nullish (v : value) : bool := is_undefined v || is_null v.

(** [v instanceof Object]. *)
Definition instanceof_Object (v : value) : bool :=
  match v with
  | VDate _ _ | VObject _ _ => true
  | _ => false
  end.

(** Comparison by value: the content decides and the address is ignored.
    The code never uses it; it is what a deep comparison of two composite
    identifiers would compute. *)
Fixpoint same_value (a b : value) {struct a} : bool :=
  match a, b with
  | VUndefined, VUndefined => true
  | VNull, VNull => true
  | VBoolean x, VBoolean y => Bool.eqb x y
  | VNumber x, VNumber y => PrimFloat.eqb x y
  | VString x, VString y => String.eqb x y
  | VDate _ t, VDate _ t' => Z.eqb t t'
  | VObject _ ps, VObject _ qs =>
      (fix same_props (ps qs : list (string * value)) {struct ps} : bool :=
         match ps, qs with
         | [], [] => true
         | (k, v) :: ps', (k', v') :: qs' =>
             String.eqb k k' && same_value v v' && same_props ps' qs'
         | _, _ => false
         end) ps qs
  | _, _ => false
  end.

(* ------------------------------------------------------------------------- *)
(** ** Metadata *)
(* ------------------------------------------------------------------------- *)

(** Modelled from the spec: the [ColumnTypes] table is not among the source
    files. The spec lists the semantic type tags the diff distinguishes:
    date, time, datetime, json, delimited-array, and plain for the rest. *)
Inductive ColumnType : Type :=
| DATE
| TIME
| DATETIME
| JSON
| SIMPLE_ARRAY
| OTHER (name : string).

(** Modelled from the spec: [ColumnMetadata] is declared outside the source
    files; these are the members [Subject] reads. *)
Record ColumnMetadata : Type := mkColumn {
  col_propertyName : string;
  col_type : ColumnType;
  isInEmbedded : bool;
  embeddedProperty : string;
  isVirtual : bool;
  isParentId : bool;
  isDiscriminator : bool;
  isUpdateDate : bool;
  isVersion : bool;
  isCreateDate : bool;
  loadInLocalTimezone : bool
}.

(** Modelled from the spec: [RelationMetadata] is declared outside the
    source files. [getEntityIdMixedMap] stands for
    [relation.inverseEntityMetadata.getEntityIdMixedMap], the helper of the
    related entity's metadata that extracts the mixed identifier (a scalar
    primary key or a composite map) from an instance. *)
Record RelationMetadata : Type := mkRelation {
  rel_propertyName : string;
  rel_name : string;
  isManyToOne : bool;
  isOneToOne : bool;
  isOneToMany : bool;
  isManyToMany : bool;
  isOwning : bool;
  getEntityIdMixedMap : value -> res value
}.

(** Modelled from the spec: [EntityMetadata] is declared outside the source
    files; the entity name and the full lists of columns and relations. *)
Record EntityMetadata : Type := mkMetadata {
  md_name : string;
  allColumns : list ColumnMetadata;
  allRelations : list RelationMetadata
}.

(** The relations that store a foreign key on this entity: many-to-one and
    owning one-to-one. *)
Definition has_join_column (r : RelationMetadata) : bool :=
  isManyToOne r || (isOneToOne r && isOwning r).

(** Modelled from the spec: [EntityMetadata.findRelationWithDbName] is not
    among the source files. The spec has the metadata tell whether a column
    name corresponds to an owning relation's foreign key; the relation is
    looked up by its database-facing [name] among those that store a
    foreign key, and [None] stands for no relation found. *)
Definition findRelationWithDbName (m : EntityMetadata) (dbName : string)
  : option RelationMetadata :=
  find (fun r => has_join_column r && String.eqb (rel_name r) dbName)
       (allRelations m).

(** Modelled from the spec: [EntityMetadata.hasRelationWithDbName] is not
    among the source files; it tells whether the lookup finds a relation. *)
Definition hasRelationWithDbName (m : EntityMetadata) (dbName : string) : bool :=
  match findRelationWithDbName m dbName with Some _ => true | None => false end.

(** Modelled from the spec: [DataTransformationUtils] is not among the
    source files. Each helper turns a raw value into its comparable form and
    may fail on a value it cannot convert. *)
Record DataTransformationUtils : Type := mkUtils {
  mixedDateToDateString : value -> res value;
  mixedDateToTimeString : value -> res value;
  mixedDateToDatetimeString : value -> res value;
  mixedDateToUtcDatetimeString : value -> res value;
  simpleArrayToString : value -> res value
}.

(* ------------------------------------------------------------------------- *)
(** ** Subject *)
(* ------------------------------------------------------------------------- *)

Record JunctionInsert : Type := mkJunctionInsert {
  ji_relation : RelationMetadata;
  junctionEntities : list ObjectLiteral
}.

Record JunctionRemove : Type := mkJunctionRemove {
  jr_relation : RelationMetadata;
  junctionRelationIds : list value
}.

Record RelationUpdate : Type := mkRelationUpdate {
  ru_relation : RelationMetadata;
  ru_value : value
}.

(** The fields of the class, in declaration order. An optional field that
    was never assigned is [None] (or [VUndefined] for an [any]). *)
Record Subject : Type := mkSubject {
  _persistEntity : option ObjectLiteral;
  _databaseEntity : option ObjectLiteral;
  metadata : EntityMetadata;
  date : Z;
  canBeInserted : bool;
  canBeUpdated : bool;
  mustBeRemoved : bool;
  diffColumns : list ColumnMetadata;
  diffRelations : list RelationMetadata;
  relationUpdates : list RelationUpdate;
  junctionInserts : list JunctionInsert;
  junctionRemoves : list JunctionRemove;
  newlyGeneratedId : value;
  parentGeneratedId : value;
  treeLevel : option float
}.

(** [new Subject(metadata, entity, databaseEntity)] at time [now]. *)
Definition new_Subject (m : EntityMetadata) (entity databaseEntity : option ObjectLiteral)
           (now : Z) : Subject :=
  mkSubject entity databaseEntity m now false false false [] [] [] [] []
            VUndefined VUndefined None.

(** Assignments to single fields. *)
Definition with_databaseEntity (s : Subject) (d : option ObjectLiteral) : Subject :=
  mkSubject (_persistEntity s) d (metadata s) (date s)
            (canBeInserted s) (canBeUpdated s) (mustBeRemoved s)
            (diffColumns s) (diffRelations s) (relationUpdates s)
            (junctionInserts s) (junctionRemoves s)
            (newlyGeneratedId s) (parentGeneratedId s) (treeLevel s).

Definition with_diffColumns (s : Subject) (cols : list ColumnMetadata) : Subject :=
  mkSubject (_persistEntity s) (_databaseEntity s) (metadata s) (date s)
            (canBeInserted s) (canBeUpdated s) (mustBeRemoved s)
            cols (diffRelations s) (relationUpdates s)
            (junctionInserts s) (junctionRemoves s)
            (newlyGeneratedId s) (parentGeneratedId s) (treeLevel s).

Definition with_diffRelations (s : Subject) (rels : list RelationMetadata) : Subject :=
  mkSubject (_persistEntity s) (_databaseEntity s) (metadata s) (date s)
            (canBeInserted s) (canBeUpdated s) (mustBeRemoved s)
            (diffColumns s) rels (relationUpdates s)
            (junctionInserts s) (junctionRemoves s)
            (newlyGeneratedId s) (parentGeneratedId s) (treeLevel s).

(** [get entity()]. *)
Definition entity (s : Subject) : res ObjectLiteral :=
  match _persistEntity s with
  | Some e => Ok e
  | None => Throw (Error "Persistence entity is not set for the given subject.")
  end.

(** [get hasEntity()]: an object is truthy, an absent one is not. *)
Definition hasEntity (s : Subject) : bool :=
  match _persistEntity s with Some _ => true | None => false end.

(** [get databaseEntity()]. *)
Definition databaseEntity (s : Subject) : res ObjectLiteral :=
  match _databaseEntity s with
  | Some d => Ok d
  | None => Throw (Error "Database entity is not set for the given subject.")
  end.

(** [get hasDatabaseEntity()]. *)
Definition hasDatabaseEntity (s : Subject) : bool :=
  match _databaseEntity s with Some _ => true | None => false end.

(** [get mustBeInserted()]. *)
Definition mustBeInserted (s : Subject) : bool :=
  canBeInserted s && negb (hasDatabaseEntity s).

(** [get mustBeUpdated()]. *)
Definition mustBeUpdated (s : Subject) : bool :=
  canBeUpdated s &&
  ((0 <? List.length (diffColumns s))%nat || (0 <? List.length (diffRelations s))%nat).

(** [get hasRelationUpdates()]. *)
Definition hasRelationUpdates (s : Subject) : bool :=
  (0 <? List.length (relationUpdates s))%nat.

(** The double quote character of the second message. *)
Definition dquote : string := String "034"%char EmptyString.

Definition insert_remove_message (name : string) : string :=
  "Removed entity " ++ name ++
  " is also scheduled for insert operation. This looks like ORM problem. Please report a github issue.".

Definition update_remove_message (name : string) : string :=
  "Removed entity " ++ dquote ++ name ++ dquote ++
  " is also scheduled for update operation. " ++
  "Make sure you are not updating and removing same object (note that update or remove may be executed by cascade operations).".

Definition insert_update_message (name : string) : string :=
  "Inserted entity " ++ name ++
  " is also scheduled for updated operation. This looks like ORM problem. Please report a github issue.".

(** [validate()]. *)
Definition validate (s : Subject) : res unit :=
  if mustBeInserted s && mustBeRemoved s then
    Throw (Error (insert_remove_message (md_name (metadata s))))
  else if mustBeUpdated s && mustBeRemoved s then
    Throw (Error (update_remove_message (md_name (metadata s))))
  else if mustBeInserted s && mustBeUpdated s then
    Throw (Error (insert_update_message (md_name (metadata s))))
  else Ok tt.

(* ------------------------------------------------------------------------- *)
(** ** The diff filters and the setter *)
(* ------------------------------------------------------------------------- *)

Section Diff.

(** The helpers the class imports and that are not among the source files:
    [DataTransformationUtils], the built-in [JSON.stringify], and
    [ColumnMetadata.getEntityValue]. The code is modelled over any
    behaviour of theirs, a throw included. *)
Variable utils : DataTransformationUtils.
Variable JSON_stringify : value -> res value.
Variable getEntityValue : ColumnMetadata -> ObjectLiteral -> res value.

(** "normalize special values to make proper comparision": the block of
    [buildDiffColumns] that rewrites [entityValue] and [databaseValue]. *)
Definition normalize (column : ColumnMetadata) (entityValue databaseValue : value)
  : res (value * value) :=
  if negb (is_null entityValue) && negb (is_undefined entityValue) then
    match col_type column with
    | DATE =>
        ev <- mixedDateToDateString utils entityValue ;;
        Ok (ev, databaseValue)
    | TIME =>
        ev <- mixedDateToTimeString utils entityValue ;;
        Ok (ev, databaseValue)
    | DATETIME =>
        if loadInLocalTimezone column then
          ev <- mixedDateToDatetimeString utils entityValue ;;
          dv <- mixedDateToDatetimeString utils databaseValue ;;
          Ok (ev, dv)
        else
          ev <- mixedDateToUtcDatetimeString utils entityValue ;;
          dv <- mixedDateToUtcDatetimeString utils databaseValue ;;
          Ok (ev, dv)
    | JSON =>
        ev <- JSON_stringify entityValue ;;
        if negb (is_null databaseValue) && negb (is_undefined databaseValue) then
          dv <- JSON_stringify databaseValue ;;
          Ok (ev, dv)
        else Ok (ev, databaseValue)
    | SIMPLE_ARRAY =>
        ev <- simpleArrayToString utils entityValue ;;
        dv <- simpleArrayToString utils databaseValue ;;
        Ok (ev, dv)
    | OTHER _ => Ok (entityValue, databaseValue)
    end
  else Ok (entityValue, databaseValue).

(** [column.isInEmbedded && (entity[column.embeddedProperty] === undefined
    || entity[column.embeddedProperty][column.propertyName] === undefined)],
    with the short circuits of [&&] and [||]. *)
Definition embedded_undefined (e : ObjectLiteral) (column : ColumnMetadata) : res bool :=
  if isInEmbedded column then
    if is_undefined (get e (embeddedProperty column)) then Ok true
    else
      v <- get_prop (get e (embeddedProperty column)) (col_propertyName column) ;;
      Ok (is_undefined v)
  else Ok false.

Definition is_special (column : ColumnMetadata) : bool :=
  isVirtual column || isParentId column || isDiscriminator column ||
  isUpdateDate column || isVersion column || isCreateDate column.

(** The last test of the callback: "filter out relational columns only in
    the case if there is a relation object in entity". [true] when the
    column is filtered out. The lookup runs under the guard of
    [hasRelationWithDbName]; reading [propertyName] off a relation that was
    not found would be a [TypeError]. *)
Definition relation_object_present (m : EntityMetadata) (e : ObjectLiteral)
           (column : ColumnMetadata) : res bool :=
  if negb (isInEmbedded column) && hasRelationWithDbName m (col_propertyName column) then
    match findRelationWithDbName m (col_propertyName column) with
    | Some relation =>
        Ok (negb (is_null (get e (rel_propertyName relation))) &&
            negb (is_undefined (get e (rel_propertyName relation))))
    | None => Throw TypeError
    end
  else Ok false.

(** The two values the callback of [buildDiffColumns] compares: the first
    statements of the callback, up to the end of the normalization. *)
Definition normalized_values (s : Subject) (column : ColumnMetadata)
  : res (value * value) :=
  e <- entity s ;;
  entityValue <- getEntityValue column e ;;
  d <- databaseEntity s ;;
  databaseValue <- getEntityValue column d ;;
  normalize column entityValue databaseValue.

(** The callback of the filter in [buildDiffColumns]. *)
Definition column_differs (s : Subject) (column : ColumnMetadata) : res bool :=
  nv <- normalized_values s column ;;
  e <- entity s ;;
  if negb (isInEmbedded column) && is_undefined (get e (col_propertyName column))
  then Ok false
  else
    u <- embedded_undefined e column ;;
    if u then Ok false
    else if is_special column || strict_equals (fst nv) (snd nv) then Ok false
    else
      r <- relation_object_present (metadata s) e column ;;
      if r then Ok false else Ok true.

(** [buildDiffColumns()]. *)
Definition buildDiffColumns (s : Subject) : res (list ColumnMetadata) :=
  filterM (column_differs s) (allColumns (metadata s)).

(** [updatedEntityRelationId]: the mixed identifier of a nested object, or
    the raw property value. *)
Definition updatedEntityRelationId (e : ObjectLiteral) (relation : RelationMetadata)
  : res value :=
  if instanceof_Object (get e (rel_propertyName relation))
  then getEntityIdMixedMap relation (get e (rel_propertyName relation))
  else Ok (get e (rel_propertyName relation)).

(** The two identifiers the callback of [buildDiffRelationalColumns]
    compares: [updatedEntityRelationId] and [dbEntityRelationId]. *)
Definition relation_ids (s : Subject) (relation : RelationMetadata)
  : res (value * value) :=
  e <- entity s ;;
  updatedId <- updatedEntityRelationId e relation ;;
  d <- databaseEntity s ;;
  Ok (updatedId, get d (rel_name relation)).

(** The callback of the filter in [buildDiffRelationalColumns]. *)
Definition relation_differs (s : Subject) (relation : RelationMetadata) : res bool :=
  if negb (isManyToOne relation) && negb (isOneToOne relation && isOwning relation)
  then Ok false
  else
    ids <- relation_ids s relation ;;
    let updatedId := fst ids in
    let dbEntityRelationId := snd ids in
    if is_undefined updatedId then Ok false
    else if (is_undefined updatedId || is_null updatedId) &&
            (is_undefined dbEntityRelationId || is_null dbEntityRelationId)
    then Ok false
    else Ok (negb (strict_equals updatedId dbEntityRelationId)).

(** [buildDiffRelationalColumns()]. *)
Definition buildDiffRelationalColumns (s : Subject) : res (list RelationMetadata) :=
  filterM (relation_differs s) (allRelations (metadata s)).

(** [set databaseEntity(databaseEntity)]. The argument is [None] when a
    caller passes a falsy value in place of an object. The result is the
    outcome of the assignment and the subject it leaves: a throw out of a
    diff filter keeps the writes made before it. *)
Definition set_databaseEntity (s : Subject) (databaseEntity : option ObjectLiteral)
  : res unit * Subject :=
  let s1 := with_databaseEntity s databaseEntity in
  if hasEntity s1 && (match databaseEntity with Some _ => true | None => false end)
  then
    match buildDiffColumns s1 with
    | Throw e => (Throw e, s1)
    | Ok cols =>
        let s2 := with_diffColumns s1 cols in
        match buildDiffRelationalColumns s2 with
        | Throw e => (Throw e, s2)
        | Ok rels => (Ok tt, with_diffRelations s2 rels)
        end
    end
  else (Ok tt, s1).

End Diff.


(* ------------------------------------------------------------------------- *)
(** ** Vocabulary of the properties *)
(* ------------------------------------------------------------------------- *)

(** The raw value of a column is resolvable on the desired entity:
    [entity[propertyName]] is defined for a plain column;
    [entity[embeddedProperty]] and [entity[embeddedProperty][propertyName]]
    are defined for an embedded one. *)
Definition resolvable (e : ObjectLiteral) (c : ColumnMetadata) : bool :=
  if isInEmbedded c then
    negb (is_undefined (get e (embeddedProperty c))) &&
    match get_prop (get e (embeddedProperty c)) (col_propertyName c) with
    | Ok v => negb (is_undefined v)
    | Throw _ => false
    end
  else negb (is_undefined (get e (col_propertyName c))).

(** A column the diff compares by value: resolvable and not system-managed. *)
Definition diffable (e : ObjectLiteral) (c : ColumnMetadata) : bool :=
  resolvable e c && negb (is_special c).

(** The container of an embedded column is not [null] on the entity, so
    that the read [entity[embeddedProperty][propertyName]] does not throw. *)
Definition embedded_readable (e : ObjectLiteral) (c : ColumnMetadata) : bool :=
  negb (isInEmbedded c) || negb (is_null (get e (embeddedProperty c))).

(** The two identifiers of a relation differ for the relation diff: the
    desired one is not [undefined], they are not both empty, and they are
    not [===]. *)
Definition ids_differ (updatedId dbId : value) : bool :=
  negb (is_undefined updatedId) &&
  negb (is_nullish updatedId && is_nullish dbId) &&
  negb (strict_equals updatedId dbId).

(** The same with the identifiers compared by value. *)
Definition ids_differ_by_value (updatedId dbId : value) : bool :=
  negb (is_undefined updatedId) &&
  negb (is_nullish updatedId && is_nullish dbId) &&
  negb (same_value updatedId dbId).

(** Cardinality flags of a well-formed relation descriptor: exactly one
    cardinality, and the many-to-one side is the owning side. *)
Definition relation_wf (r : RelationMetadata) : Prop :=
  (isManyToOne r = true -> isOwning r = true) /\
  (isOneToMany r = true \/ isManyToMany r = true ->
   isManyToOne r = false /\ isOneToOne r = false).

(** The identifier helper returns on every many-to-one and owning
    one-to-one relation of the subject. *)
Definition relation_helpers_return (s : Subject) : Prop :=
  forall r, In r (allRelations (metadata s)) ->
    has_join_column r = true -> exists ids, relation_ids s r = Ok ids.

Section DiffVocabulary.

Variable utils : DataTransformationUtils.
Variable JSON_stringify : value -> res value.
Variable getEntityValue : ColumnMetadata -> ObjectLiteral -> res value.

(** Every column of the subject has comparable values under [eq], for the
    columns the diff compares by value. *)
Definition columns_equal (eq : value -> value -> bool) (s : Subject)
           (e : ObjectLiteral) : Prop :=
  forall c, In c (allColumns (metadata s)) ->
    exists ev dv,
      normalized_values utils JSON_stringify getEntityValue s c = Ok (ev, dv) /\
      (diffable e c = true -> eq ev dv = true).

(** Every many-to-one and owning one-to-one relation of the subject has
    identifiers equal under [eq]. *)
Definition relations_equal (eq : value -> value -> bool) (s : Subject) : Prop :=
  forall r, In r (allRelations (metadata s)) ->
    has_join_column r = true ->
    exists u dbId, relation_ids s r = Ok (u, dbId) /\ eq u dbId = true.

(** No embedded column of the subject has a [null] container on the entity. *)
Definition embedded_containers_readable (s : Subject) (e : ObjectLiteral) : Prop :=
  forall c, In c (allColumns (metadata s)) -> embedded_readable e c = true.

(** The helpers the column diff calls return on every column of the
    subject. *)
Definition column_helpers_return (s : Subject) : Prop :=
  forall c, In c (allColumns (metadata s)) ->
    exists nv, normalized_values utils JSON_stringify getEntityValue s c = Ok nv.

(** The helpers return on every column and relation of the subject. *)
Definition helpers_return (s : Subject) : Prop :=
  column_helpers_return s /\ relation_helpers_return s.

End DiffVocabulary.

(* ------------------------------------------------------------------------- *)
(** ** Sample helpers and subjects for the examples *)
(* ------------------------------------------------------------------------- *)

(** Modelled from the spec: [ColumnMetadata.getEntityValue] is not among the
    source files. The raw value of a column is [entity[propertyName]] for a
    plain column and [entity[embeddedProperty][propertyName]] for an
    embedded one, whose container has to exist. *)
Definition getEntityValue_model (column : ColumnMetadata) (e : ObjectLiteral)
  : res value :=
  if isInEmbedded column then
    if is_nullish (get e (embeddedProperty column)) then Ok VUndefined
    else get_prop (get e (embeddedProperty column)) (col_propertyName column)
  else Ok (get e (col_propertyName column)).

(** Modelled from the spec: [EntityMetadata.getEntityIdMixedMap] is not
    among the source files. The mixed identifier of an instance is its
    single primary-key value, or a composite map of column name to value
    when the primary key has several columns. The map is a new object,
    allocated at the address [fresh]. *)
Definition getEntityIdMixedMap_model (primaryColumns : list string) (fresh : nat)
           (instance : value) : res value :=
  match instance with
  | VObject _ props =>
      match primaryColumns with
      | [pk] => Ok (lookup props pk)
      | _ => Ok (VObject fresh (map (fun k => (k, lookup props k)) primaryColumns))
      end
  | _ => Ok VUndefined
  end.

(** Decimal digits of a calendar field, padded with zeros to [width]. *)
Fixpoint digits (width : nat) (n : Z) (acc : string) : string :=
  match width with
  | O => acc
  | S w => digits w (n / 10)
             (String (ascii_of_nat (48 + Z.to_nat (n mod 10))) acc)
  end.

(** Year, month and day of the civil calendar for a count of days since
    1970-01-01. *)
Definition civil_from_days (days : Z) : Z * Z * Z :=
  let z := (days + 719468)%Z in
  let era := (z / 146097)%Z in
  let doe := (z - era * 146097)%Z in
  let yoe := ((doe - doe / 1460 + doe / 36524 - doe / 146096) / 365)%Z in
  let doy := (doe - (365 * yoe + yoe / 4 - yoe / 100))%Z in
  let mp := ((5 * doy + 2) / 153)%Z in
  let d := (doy - (153 * mp + 2) / 5 + 1)%Z in
  let m := (if mp <? 10 then mp + 3 else mp - 9)%Z in
  let y := (yoe + era * 400 + (if m <=? 2 then 1 else 0))%Z in
  (y, m, d).

Definition date_string (ms : Z) : string :=
  let '(y, m, d) := civil_from_days (ms / 86400000) in
  digits 4 y ("-" ++ digits 2 m ("-" ++ digits 2 d "")).

Definition time_string (ms : Z) : string :=
  let secs := ((ms / 1000) mod 86400)%Z in
  digits 2 (secs / 3600)
         (":" ++ digits 2 ((secs / 60) mod 60) (":" ++ digits 2 (secs mod 60) "")).

Definition datetime_string (ms : Z) : string :=
  date_string ms ++ " " ++ time_string ms.

(** A conversion of dates: a value that is not a date cannot be converted
    and fails. *)
Definition on_date (f : Z -> string) (v : value) : res value :=
  match v with
  | VDate _ time => Ok (VString (f time))
  | _ => Throw (Error "ValueNormalizationError")
  end.

(** Modelled from the spec: [DataTransformationUtils] is not among the
    source files. A date becomes a date-only string, a time-only string, a
    datetime string in the local timezone ([offset] minutes east of UTC) or
    a datetime string in UTC. The conversion of delimited arrays is not
    exercised by the examples and fails. *)
Definition utils_model (offset : Z) : DataTransformationUtils :=
  mkUtils
    (on_date (fun t => date_string (t + offset * 60000)))
    (on_date (fun t => time_string (t + offset * 60000)))
    (on_date (fun t => datetime_string (t + offset * 60000)))
    (on_date datetime_string)
    (fun _ => Throw (Error "ValueNormalizationError")).

(** [JSON.stringify] is not exercised by the examples. *)
Definition JSON_stringify_model (v : value) : res value :=
  Throw (Error "ValueNormalizationError").


(** The entity of the functional test on embedded values, a post with its
    counters, extended with a version, a publication time, an author and a
    category whose primary key has two columns. *)
Definition plain_column (name typ : string) : ColumnMetadata :=
  mkColumn name (OTHER typ) false "" false false false false false false false.

Definition counters_column (name : string) : ColumnMetadata :=
  mkColumn name (OTHER "int") true "counters"
           false false false false false false false.

Definition idColumn : ColumnMetadata := plain_column "id" "int".
Definition titleColumn : ColumnMetadata := plain_column "title" "string".
Definition textColumn : ColumnMetadata := plain_column "text" "string".
Definition commentsColumn : ColumnMetadata := counters_column "comments".
Definition favoritesColumn : ColumnMetadata := counters_column "favorites".
Definition likesColumn : ColumnMetadata := counters_column "likes".
Definition versionColumn : ColumnMetadata :=
  mkColumn "version" (OTHER "int") false "" false false false false true false false.
Definition publishedAtColumn : ColumnMetadata :=
  mkColumn "publishedAt" DATETIME false "" false false false false false false false.
Definition authorIdColumn : ColumnMetadata := plain_column "authorId" "int".

Definition authorRelation : RelationMetadata :=
  mkRelation "author" "authorId" true false false false true
             (getEntityIdMixedMap_model ["id"] 0).
Definition categoryRelation : RelationMetadata :=
  mkRelation "category" "category" true false false false true
             (getEntityIdMixedMap_model ["firstId"; "secondId"] 100).
Definition tagsRelation : RelationMetadata :=
  mkRelation "tags" "tags" false false true false false
             (getEntityIdMixedMap_model ["id"] 0).

Definition postMetadata : EntityMetadata :=
  mkMetadata "Post"
    [idColumn; titleColumn; textColumn; commentsColumn; favoritesColumn;
     likesColumn; versionColumn; publishedAtColumn; authorIdColumn]
    [authorRelation; categoryRelation; tagsRelation].

Definition counters (ref : nat) (comments favorites likes : float) : value :=
  VObject ref [("comments", VNumber comments); ("favorites", VNumber favorites);
               ("likes", VNumber likes)].

(** The post as stored: author 8, published on 2017-01-01 at 10:00 UTC. *)
Definition storedPost : ObjectLiteral :=
  mkObject 10
    [("id", VNumber 1); ("title", VString "Hello post");
     ("text", VString "This is text about the post");
     ("counters", counters 11 5 2 1); ("version", VNumber 1);
     ("publishedAt", VDate 12 1483264800000); ("authorId", VNumber 8)].

(** The post as loaded and left untouched: the same values in objects of
    its own, the author as a nested object. *)
Definition loadedPost : ObjectLiteral :=
  mkObject 1
    [("id", VNumber 1); ("title", VString "Hello post");
     ("text", VString "This is text about the post");
     ("counters", counters 2 5 2 1); ("version", VNumber 1);
     ("publishedAt", VDate 3 1483264800000);
     ("author", VObject 4 [("id", VNumber 8); ("name", VString "Ann")])].

(** The loaded post after [counters.favorites += 1]. *)
Definition updatedPost : ObjectLiteral :=
  mkObject 1
    [("id", VNumber 1); ("title", VString "Hello post");
     ("text", VString "This is text about the post");
     ("counters", counters 2 5 3 1); ("version", VNumber 1);
     ("publishedAt", VDate 3 1483264800000);
     ("author", VObject 4 [("id", VNumber 8); ("name", VString "Ann")])].

(** A post that names its author by a bare foreign-key value and carries
    the foreign-key column as well. *)
Definition bareIdPost : ObjectLiteral :=
  mkObject 1 [("author", VNumber 5); ("authorId", VNumber 5)].

Definition storedBareIdPost : ObjectLiteral :=
  mkObject 10 [("authorId", VNumber 6)].

(** A post in a category with a two-column key; the snapshot carries the
    same key as a composite foreign-key value. *)
Definition categoryPost : ObjectLiteral :=
  mkObject 1
    [("title", VString "Hello post");
     ("category", VObject 20 [("firstId", VNumber 1); ("secondId", VNumber 2);
                              ("name", VString "news")])].

Definition storedCategoryPost : ObjectLiteral :=
  mkObject 10
    [("title", VString "Hello post");
     ("category", VObject 30 [("firstId", VNumber 1); ("secondId", VNumber 2)])].

(** A subject of [postMetadata] with both entities, allowed to be updated. *)
Definition post_subject (e d : ObjectLiteral) : Subject :=
  mkSubject (Some e) (Some d) postMetadata 0 false true false [] [] [] [] []
            VUndefined VUndefined None.

(** The helpers of the examples, in a process running on UTC. *)
Definition sample_columns : Subject -> res (list ColumnMetadata) :=
  buildDiffColumns (utils_model 0) JSON_stringify_model getEntityValue_model.

Definition sample_values : Subject -> ColumnMetadata -> res (value * value) :=
  normalized_values (utils_model 0) JSON_stringify_model getEntityValue_model.

Definition sample_assign : Subject -> option ObjectLiteral -> res unit * Subject :=
  set_databaseEntity (utils_model 0) JSON_stringify_model getEntityValue_model.

(** A post that sets the foreign-key column and leaves the relation alone. *)
Definition foreignKeyPost : ObjectLiteral :=
  mkObject 1 [("authorId", VNumber 5)].

(** A subject found in the database only, with lists left by earlier work. *)
Definition orphan_subject : Subject :=
  mkSubject None None postMetadata 0 false true false
            [titleColumn] [authorRelation] [] [] []
            VUndefined VUndefined None.

(** The identifier extracted from the category of [categoryPost]. *)
Definition categoryId : value :=
  VObject 100 [("firstId", VNumber 1); ("secondId", VNumber 2)].

Definition storedCategoryId : value :=
  VObject 30 [("firstId", VNumber 1); ("secondId", VNumber 2)].

(** A post whose counters were set to [null]. *)
Definition nullCountersPost : ObjectLiteral :=
  mkObject 1 [("title", VString "Hello post"); ("counters", VNull)].

(* ------------------------------------------------------------------------- *)
(** ** Further vocabulary and samples *)
(* ------------------------------------------------------------------------- *)

(** [l] is [l'] with some elements left out, the others in their order. *)
Inductive subsequence {A : Type} : list A -> list A -> Prop :=
| subsequence_nil : subsequence [] []
| subsequence_skip (x : A) (l l' : list A) :
    subsequence l l' -> subsequence l (x :: l')
| subsequence_keep (x : A) (l l' : list A) :
    subsequence l l' -> subsequence (x :: l) (x :: l').

(** The messages of the two entity getters. *)
Definition entity_not_set : exn :=
  Error "Persistence entity is not set for the given subject.".

Definition databaseEntity_not_set : exn :=
  Error "Database entity is not set for the given subject.".

(** A serializer for the values the examples hold: strings without
    characters to escape, booleans, [null], and objects of those, written
    as [JSON.stringify] writes them. Any other value is outside it. *)
Fixpoint json_text (v : value) : option string :=
  match v with
  | VNull => Some "null"
  | VBoolean b => Some (if b then "true" else "false")
  | VString s => Some (dquote ++ s ++ dquote)
  | VObject _ props =>
      match
        (fix members (ps : list (string * value)) : option (list string) :=
           match ps with
           | [] => Some []
           | (k, w) :: t =>
               match json_text w, members t with
               | Some jw, Some jt => Some ((dquote ++ k ++ dquote ++ ":" ++ jw) :: jt)
               | _, _ => None
               end
           end) props
      with
      | Some ms => Some ("{" ++ String.concat "," ms ++ "}")
      | None => None
      end
  | _ => None
  end.

Definition JSON_stringify_sample (v : value) : res value :=
  match json_text v with
  | Some text => Ok (VString text)
  | None => Throw (Error "ValueNormalizationError")
  end.

(** A profile with a JSON column, a date column and a number column. *)
Definition settingsColumn : ColumnMetadata :=
  mkColumn "settings" JSON false "" false false false false false false false.
Definition birthdayColumn : ColumnMetadata :=
  mkColumn "birthday" DATE false "" false false false false false false false.
Definition scoreColumn : ColumnMetadata := plain_column "score" "double".

Definition profileMetadata : EntityMetadata :=
  mkMetadata "Profile" [settingsColumn; birthdayColumn; scoreColumn] [].

(** The profile as stored, and as the caller wants it: the same settings
    in an object of its own, the birthday set to [null], the score not a
    number on both sides. *)
Definition storedProfile : ObjectLiteral :=
  mkObject 40
    [("settings", VObject 41 [("theme", VString "dark"); ("compact", VBoolean true)]);
     ("birthday", VString "1990-01-01"); ("score", VNumber nan)].

Definition editedProfile : ObjectLiteral :=
  mkObject 50
    [("settings", VObject 51 [("theme", VString "dark"); ("compact", VBoolean true)]);
     ("birthday", VNull); ("score", VNumber nan)].

Definition profile_subject : Subject :=
  mkSubject (Some editedProfile) (Some storedProfile) profileMetadata 0
            false true false [] [] [] [] [] VUndefined VUndefined None.

Definition profile_columns : Subject -> res (list ColumnMetadata) :=
  buildDiffColumns (utils_model 0) JSON_stringify_sample getEntityValue_model.

(** A post detached from its author: the relation and the foreign-key
    column are both set to [null]. *)
Definition detachedPost : ObjectLiteral :=
  mkObject 1 [("author", VNull); ("authorId", VNull)].

(** A subject that is to be removed and whose lists were left by earlier
    work. *)
Definition removed_subject : Subject :=
  mkSubject (Some updatedPost) None postMetadata 0 true true true
            [titleColumn] [] [] [] [] VUndefined VUndefined None.

(** The text both settings objects serialize to. *)
Definition settings_text : string :=
  Eval vm_compute in
    match json_text (get editedProfile "settings") with
    | Some text => text
    | None => ""
    end.

(** The updated post in a subject with other flags, lists and date. *)
Definition flagged_subject : Subject :=
  mkSubject (Some updatedPost) (Some storedPost) postMetadata 7 true false true
            [titleColumn] [authorRelation] [] [] [] (VNumber 1) VUndefined None.

(** A subject for the post with [null] counters, not yet paired with its
    snapshot. *)
Definition nullCounters_subject : Subject :=
  mkSubject (Some nullCountersPost) None postMetadata 0 false true false
            [titleColumn] [authorRelation] [] [] [] VUndefined VUndefined None.

(** A profile whose birthday is a date object, on 1990-01-01, while the
    snapshot holds a date object for the same day. *)
Definition datedProfile : ObjectLiteral :=
  mkObject 50 [("birthday", VDate 52 631152000000)].

Definition storedDatedProfile : ObjectLiteral :=
  mkObject 40 [("birthday", VDate 42 631152000000)].

Definition dated_subject : Subject :=
  mkSubject (Some datedProfile) (Some storedDatedProfile) profileMetadata 0
            false true false [] [] [] [] [] VUndefined VUndefined None.

(** A post whose author is a new object that has no identifier yet. *)
Definition unsavedAuthorPost : ObjectLiteral :=
  mkObject 1 [("author", VObject 4 [("name", VString "Ann")])].

(* ------------------------------------------------------------------------- *)
(** ** Vocabulary and samples for the date types *)
(* ------------------------------------------------------------------------- *)

(** No value stands at the property of a relation named after the column:
    the column is embedded, or no relation that stores a foreign key has its
    name, or the desired entity holds [null] or [undefined] there. *)
Definition no_relation_value (m : EntityMetadata) (e : ObjectLiteral)
           (c : ColumnMetadata) : Prop :=
  isInEmbedded c = false ->
  forall r, findRelationWithDbName m (col_propertyName c) = Some r ->
            is_nullish (get e (rel_propertyName r)) = true.

Section ComparedValues.

Variable utils : DataTransformationUtils.
Variable JSON_stringify : value -> res value.
Variable getEntityValue : ColumnMetadata -> ObjectLiteral -> res value.

(** The column diff [cols] of the subject has compared, for the column [c],
    the value [a] on the entity side with the value [b] on the database
    side: these are the two values its callback ends up with, and the
    column is reported exactly when it is diffable, [a] and [b] are not
    [===] and no relation value stands for it. *)
Definition compared_as (s : Subject) (e : ObjectLiteral)
           (cols : list ColumnMetadata) (c : ColumnMetadata) (a b : value) : Prop :=
  normalized_values utils JSON_stringify getEntityValue s c = Ok (a, b) /\
  (In c cols <->
   diffable e c = true /\ strict_equals a b = false /\
   no_relation_value (metadata s) e c).

End ComparedValues.

(** An event with one column of each date type: a datetime kept in local
    time, a datetime kept in UTC, a date and a time. *)
Definition startsAtColumn : ColumnMetadata :=
  mkColumn "startsAt" DATETIME false "" false false false false false false true.
Definition createdColumn : ColumnMetadata :=
  mkColumn "created" DATETIME false "" false false false false false false false.
Definition dayColumn : ColumnMetadata :=
  mkColumn "day" DATE false "" false false false false false false false.
Definition opensAtColumn : ColumnMetadata :=
  mkColumn "opensAt" TIME false "" false false false false false false false.

Definition eventMetadata : EntityMetadata :=
  mkMetadata "Event" [startsAtColumn; createdColumn; dayColumn; opensAtColumn] [].

(** The event as the caller holds it: four date objects, all for
    2017-01-01 at 10:00:00 UTC. *)
Definition loadedEvent : ObjectLiteral :=
  mkObject 60
    [("startsAt", VDate 61 1483264800000); ("created", VDate 62 1483264800000);
     ("day", VDate 63 1483264800000); ("opensAt", VDate 64 1483264800000)].

(** The event as stored, read in a process two hours east of UTC: date
    objects of their own for the two datetimes, texts for the date and the
    time. *)
Definition storedEvent : ObjectLiteral :=
  mkObject 70
    [("startsAt", VDate 71 1483264800000); ("created", VDate 72 1483264800000);
     ("day", VString "2017-01-01"); ("opensAt", VString "12:00:00")].

(** The same with the time of opening stored an hour later. *)
Definition movedEvent : ObjectLiteral :=
  mkObject 70
    [("startsAt", VDate 71 1483264800000); ("created", VDate 72 1483264800000);
     ("day", VString "2017-01-01"); ("opensAt", VString "13:00:00")].

Definition event_subject (d : ObjectLiteral) : Subject :=
  mkSubject (Some loadedEvent) (Some d) eventMetadata 0
            false true false [] [] [] [] [] VUndefined VUndefined None.

(** The column diff in a process two hours east of UTC. *)
Definition event_columns : Subject -> res (list ColumnMetadata) :=
  buildDiffColumns (utils_model 120) JSON_stringify_model getEntityValue_model.

Definition event_values : Subject -> ColumnMetadata -> res (value * value) :=
  normalized_values (utils_model 120) JSON_stringify_model getEntityValue_model.
(* ------------------------------------------------------------------------- *)
(** ** Properties *)
(* ------------------------------------------------------------------------- *)

(** *** Strings *)

Lemma length_append (a b : string) :
  String.length (a ++ b) = (String.length a + String.length b)%nat.
Proof.
  induction a as [|c a IH]; simpl.
  - reflexivity.
  - now rewrite IH.
Qed.

(** The three messages of [validate] differ from one another whatever the
    entity name is. *)
Lemma messages_distinct (name : string) :
  insert_remove_message name <> update_remove_message name /\
  update_remove_message name <> insert_update_message name /\
  insert_remove_message name <> insert_update_message name.
Proof.
  repeat split; unfold insert_remove_message, update_remove_message,
    insert_update_message; simpl; intro H.
  - apply (f_equal String.length) in H.
    unfold dquote in H. simpl in H.
    repeat (rewrite length_append in H; simpl in H). lia.
  - discriminate H.
  - discriminate H.
Qed.

(** *** The derived flags and [validate] *)

(** C1. [validate] throws exactly when two of [mustBeInserted],
    [mustBeUpdated] and [mustBeRemoved] hold together: the insert-and-remove
    error when the first and the third hold, the update-and-remove error when
    the last two hold (and the first does not, whose check comes first), the
    insert-and-update error when the first two hold and the third does not.
    The three errors differ. With at most one flag set it returns, and being
    a reader of the subject it leaves every field as it was. *)
Theorem validate_conflicts (s : Subject) :
  let name := md_name (metadata s) in
  let I := mustBeInserted s in
  let U := mustBeUpdated s in
  let R := mustBeRemoved s in
  ((exists e, validate s = Throw e) <->
     (I = true /\ R = true) \/ (U = true /\ R = true) \/ (I = true /\ U = true)) /\
  (I = true /\ R = true ->
     validate s = Throw (Error (insert_remove_message name))) /\
  (I = false /\ U = true /\ R = true ->
     validate s = Throw (Error (update_remove_message name))) /\
  (I = true /\ U = true /\ R = false ->
     validate s = Throw (Error (insert_update_message name))) /\
  (insert_remove_message name <> update_remove_message name /\
   update_remove_message name <> insert_update_message name /\
   insert_remove_message name <> insert_update_message name) /\
  (I && R = false /\ U && R = false /\ I && U = false -> validate s = Ok tt).
Proof.
  cbv zeta. unfold validate.
  destruct (mustBeInserted s), (mustBeUpdated s), (mustBeRemoved s); simpl;
    (split; [split; [intros [e He]; try discriminate He; tauto
                    | intros [[? ?]|[[? ?]|[? ?]]]; try discriminate; eauto]
            | repeat split; try apply messages_distinct;
              intros; try reflexivity;
              repeat match goal with H : _ /\ _ |- _ => destruct H end;
              discriminate ]).
Qed.

(** C2. [mustBeInserted] holds exactly when [canBeInserted] holds and the
    subject has no database entity; two subjects that agree on these two
    agree on the flag, whatever their other fields hold. *)
Theorem mustBeInserted_iff (s : Subject) :
  (mustBeInserted s = true <->
     canBeInserted s = true /\ hasDatabaseEntity s = false) /\
  (forall s' : Subject,
     canBeInserted s' = canBeInserted s ->
     hasDatabaseEntity s' = hasDatabaseEntity s ->
     mustBeInserted s' = mustBeInserted s).
Proof.
  unfold mustBeInserted. split.
  - destruct (canBeInserted s), (hasDatabaseEntity s); simpl; intuition congruence.
  - intros s' Hc Hd. now rewrite Hc, Hd.
Qed.

(** C3. [mustBeUpdated] holds exactly when [canBeUpdated] holds and
    [diffColumns] or [diffRelations] has an element. *)
Theorem mustBeUpdated_iff (s : Subject) :
  mustBeUpdated s = true <->
    canBeUpdated s = true /\
    (List.length (diffColumns s) > 0 \/ List.length (diffRelations s) > 0)%nat.
Proof.
  unfold mustBeUpdated.
  rewrite andb_true_iff, orb_true_iff, !Nat.ltb_lt. reflexivity.
Qed.

(** *** The sample date conversion *)

Example datetime_string_epoch :
  datetime_string 0 = "1970-01-01 00:00:00".
Proof. reflexivity. Qed.

Example datetime_string_2017 :
  datetime_string 1483264800123 = "2017-01-01 10:00:00".
Proof. reflexivity. Qed.

Example datetime_string_leap :
  datetime_string 1709251199000 = "2024-02-29 23:59:59".
Proof. reflexivity. Qed.

(** *** The diff on the sample posts *)

(** The update of the functional test: only [favorites] changed. *)
Example updatedPost_columns :
  sample_columns (post_subject updatedPost storedPost) = Ok [favoritesColumn].
Proof. vm_compute. reflexivity. Qed.

Example updatedPost_relations :
  buildDiffRelationalColumns (post_subject updatedPost storedPost) = Ok [].
Proof. vm_compute. reflexivity. Qed.

Example loadedPost_columns :
  sample_columns (post_subject loadedPost storedPost) = Ok [].
Proof. vm_compute. reflexivity. Qed.

Example bareIdPost_columns :
  sample_columns (post_subject bareIdPost storedBareIdPost) = Ok [].
Proof. vm_compute. reflexivity. Qed.

Example bareIdPost_relations :
  buildDiffRelationalColumns (post_subject bareIdPost storedBareIdPost)
  = Ok [authorRelation].
Proof. vm_compute. reflexivity. Qed.

Example categoryPost_relations :
  buildDiffRelationalColumns (post_subject categoryPost storedCategoryPost)
  = Ok [categoryRelation].
Proof. vm_compute. reflexivity. Qed.

(** A [null] container of an embedded column passes the test against
    [undefined] and the read of the column under it throws. *)
Example nullCountersPost_columns :
  sample_columns (post_subject nullCountersPost storedPost) = Throw TypeError.
Proof. vm_compute. reflexivity. Qed.

Example nullCountersPost_assign :
  fst (sample_assign (new_Subject postMetadata (Some nullCountersPost) None 0)
                     (Some storedPost))
  = Throw TypeError.
Proof. vm_compute. reflexivity. Qed.

(** The event left as loaded has nothing to report in a process two hours
    east of UTC; a time of opening stored an hour later is reported. *)
Example storedEvent_columns :
  event_columns (event_subject storedEvent) = Ok [] /\
  event_columns (event_subject movedEvent) = Ok [opensAtColumn].
Proof. split; vm_compute; reflexivity. Qed.

(** *** The filter with a throwing callback *)

(** Case analysis on the membership [Hin] in a list given by its elements,
    with [tac] run on each element. *)
Ltac each_member Hin tac :=
  simpl in Hin; repeat (destruct Hin as [<-|Hin]; [tac|]); destruct Hin.

(** The compared values of a sample column and the equality asked of
    them, or the column is not one the diff compares. *)
Ltac sample_column_equal :=
  eexists; eexists; split;
  [reflexivity
  |first [intros _; reflexivity
         |let H := fresh in intros H; vm_compute in H; discriminate H]].

(** The same for the identifiers of a sample relation with join column
    [Hj]. *)
Ltac sample_relation_equal Hj :=
  first [eexists; eexists; split; reflexivity
        |vm_compute in Hj; discriminate Hj].

Section FilterM.

Context {A : Type}.
Variable f : A -> res bool.

Lemma filterM_cons_inv (x : A) (t l' : list A) :
  filterM f (x :: t) = Ok l' ->
  exists b r, f x = Ok b /\ filterM f t = Ok r /\ l' = if b then x :: r else r.
Proof.
  simpl. destruct (f x) as [b|e]; simpl; [|discriminate].
  destruct (filterM f t) as [r|e]; simpl; [|discriminate].
  intros [= <-]. now exists b, r.
Qed.

(** The result holds the elements on which the callback returned [true]. *)
Lemma filterM_In (l l' : list A) :
  filterM f l = Ok l' ->
  forall x, In x l' <-> In x l /\ f x = Ok true.
Proof.
  revert l'. induction l as [|a t IH]; intros l' H x.
  - injection H as <-. simpl. tauto.
  - apply filterM_cons_inv in H as (b & r & Hb & Hr & ->).
    specialize (IH r Hr x). destruct b; simpl; rewrite IH.
    + split.
      * intros [<-|[Hin Hx]]; auto.
      * intros [[<-|Hin] Hx]; auto.
    + split.
      * intros [Hin Hx]; auto.
      * intros [[<-|Hin] Hx]; [congruence|auto].
Qed.

(** A call that returns has had its callback return on every element. *)
Lemma filterM_each (l l' : list A) :
  filterM f l = Ok l' ->
  forall x, In x l -> exists b, f x = Ok b.
Proof.
  revert l'. induction l as [|a t IH]; intros l' H x Hin.
  - destruct Hin.
  - apply filterM_cons_inv in H as (b & r & Hb & Hr & _).
    destruct Hin as [<-|Hin]; eauto.
Qed.

(** The call returns as soon as the callback returns on every element. *)
Lemma filterM_total (l : list A) :
  (forall x, In x l -> exists b, f x = Ok b) ->
  exists l', filterM f l = Ok l'.
Proof.
  induction l as [|a t IH]; intros H.
  - now exists [].
  - destruct (H a (or_introl eq_refl)) as [b Hb].
    destruct IH as [r Hr]; [intros x Hx; apply H; now right|].
    simpl. rewrite Hb, Hr. simpl. eauto.
Qed.

(** The result is empty when the callback returns [false] everywhere. *)
Lemma filterM_none (l : list A) :
  (forall x, In x l -> f x = Ok false) ->
  filterM f l = Ok [].
Proof.
  induction l as [|a t IH]; intros H.
  - reflexivity.
  - simpl. rewrite (H a (or_introl eq_refl)). simpl.
    rewrite IH by (intros x Hx; apply H; now right). reflexivity.
Qed.

End FilterM.

(** *** The callbacks of the two diff filters *)

Lemma is_nullish_false (v : value) :
  is_nullish v = false <-> is_undefined v = false /\ is_null v = false.
Proof. unfold is_nullish. apply orb_false_iff. Qed.

Lemma get_prop_defined (v : value) (k : string) :
  is_undefined v = false -> is_null v = false -> exists w, get_prop v k = Ok w.
Proof. destruct v; simpl; intros; try discriminate; eauto. Qed.

Lemma findRelationWithDbName_sound (m : EntityMetadata) (n : string) (r : RelationMetadata) :
  findRelationWithDbName m n = Some r ->
  In r (allRelations m) /\ has_join_column r = true /\ rel_name r = n.
Proof.
  unfold findRelationWithDbName. intros H. apply find_some in H as [Hin H].
  apply andb_true_iff in H as [Hj Hn]. apply String.eqb_eq in Hn. auto.
Qed.

Lemma relation_object_present_total (m : EntityMetadata) (e : ObjectLiteral)
      (c : ColumnMetadata) :
  exists b, relation_object_present m e c = Ok b.
Proof.
  unfold relation_object_present, hasRelationWithDbName.
  destruct (negb (isInEmbedded c)); simpl; eauto.
  destruct (findRelationWithDbName m (col_propertyName c)); simpl; eauto.
Qed.

(** What the last test of the column callback computes once the relation
    behind the column is known. *)
Lemma relation_object_present_found (m : EntityMetadata) (e : ObjectLiteral)
      (c : ColumnMetadata) (r : RelationMetadata) :
  isInEmbedded c = false ->
  findRelationWithDbName m (col_propertyName c) = Some r ->
  relation_object_present m e c = Ok (negb (is_nullish (get e (rel_propertyName r)))).
Proof.
  intros He Hr.
  unfold relation_object_present, hasRelationWithDbName.
  rewrite He, Hr. simpl. unfold is_nullish.
  now destruct (get e (rel_propertyName r)).
Qed.

Lemma embedded_undefined_total (e : ObjectLiteral) (c : ColumnMetadata) :
  embedded_readable e c = true -> exists b, embedded_undefined e c = Ok b.
Proof.
  unfold embedded_readable, embedded_undefined.
  destruct (isInEmbedded c); simpl; eauto.
  intros Hn. apply negb_true_iff in Hn.
  destruct (is_undefined (get e (embeddedProperty c))) eqn:Hu; eauto.
  destruct (get_prop_defined _ (col_propertyName c) Hu Hn) as [w ->].
  simpl. eauto.
Qed.

(** The two "value is not defined" tests of the column callback return
    [false] together exactly on a resolvable column. *)
Lemma resolvable_spec (e : ObjectLiteral) (c : ColumnMetadata) :
  resolvable e c = true <->
  negb (isInEmbedded c) && is_undefined (get e (col_propertyName c)) = false /\
  embedded_undefined e c = Ok false.
Proof.
  unfold resolvable, embedded_undefined.
  destruct (isInEmbedded c); simpl.
  - destruct (is_undefined (get e (embeddedProperty c))); simpl.
    + split; [discriminate|intros [_ H]; discriminate H].
    + destruct (get_prop (get e (embeddedProperty c)) (col_propertyName c)) as [v|x];
        simpl.
      * rewrite negb_true_iff. split.
        -- intros ->. auto.
        -- intros [_ [= H]]. exact H.
      * split; [discriminate|intros [_ H]; discriminate H].
  - rewrite negb_true_iff. tauto.
Qed.

(** The verdict of the last test of the column callback, in words of the
    entity: no value stands at the property of a relation named after a
    plain column. *)
Lemma relation_object_present_false (m : EntityMetadata) (e : ObjectLiteral)
      (c : ColumnMetadata) (rp : bool) :
  relation_object_present m e c = Ok rp ->
  (rp = false <->
   (isInEmbedded c = false ->
    forall r, findRelationWithDbName m (col_propertyName c) = Some r ->
              is_nullish (get e (rel_propertyName r)) = true)).
Proof.
  destruct (isInEmbedded c) eqn:Hemb.
  - unfold relation_object_present. rewrite Hemb. simpl. intros [= <-].
    split; [discriminate|reflexivity].
  - destruct (findRelationWithDbName m (col_propertyName c)) as [r|] eqn:Hr.
    + rewrite (relation_object_present_found m e c r Hemb Hr). intros [= <-].
      rewrite negb_false_iff. split.
      * intros H _ r' [= <-]. exact H.
      * intros H. now apply H.
    + unfold relation_object_present, hasRelationWithDbName. rewrite Hemb, Hr.
      simpl. intros [= <-]. split; [discriminate|reflexivity].
Qed.

(** The verdict of the relation callback. *)
Lemma relation_differs_spec (s : Subject) (r : RelationMetadata) (u dbId : value) :
  has_join_column r = true ->
  relation_ids s r = Ok (u, dbId) ->
  relation_differs s r = Ok (ids_differ u dbId).
Proof.
  unfold has_join_column, relation_differs, ids_differ, is_nullish.
  intros Hj Hids. rewrite Hids. simpl.
  replace (negb (isManyToOne r) && negb (isOneToOne r && isOwning r)) with false
    by (destruct (isManyToOne r), (isOneToOne r && isOwning r);
        simpl in *; congruence).
  destruct (is_undefined u); simpl; [reflexivity|].
  destruct (is_null u && (is_undefined dbId || is_null dbId)); reflexivity.
Qed.

Lemma relation_differs_skip (s : Subject) (r : RelationMetadata) :
  has_join_column r = false -> relation_differs s r = Ok false.
Proof.
  unfold has_join_column, relation_differs. intros Hj.
  apply orb_false_iff in Hj as [-> ->]. reflexivity.
Qed.

(** A returning relation callback on a many-to-one or owning one-to-one
    relation has computed both identifiers. *)
Lemma relation_differs_ids (s : Subject) (r : RelationMetadata) (b : bool) :
  has_join_column r = true ->
  relation_differs s r = Ok b ->
  exists u dbId, relation_ids s r = Ok (u, dbId).
Proof.
  unfold has_join_column, relation_differs. intros Hj.
  replace (negb (isManyToOne r) && negb (isOneToOne r && isOwning r)) with false
    by (destruct (isManyToOne r), (isOneToOne r && isOwning r);
        simpl in *; congruence).
  destruct (relation_ids s r) as [[u dbId]|x]; simpl; [|discriminate].
  intros _. now exists u, dbId.
Qed.

(** The relation filter reads the two entities and the metadata only. *)
Lemma buildDiffRelationalColumns_frame (s s' : Subject) :
  _persistEntity s' = _persistEntity s ->
  _databaseEntity s' = _databaseEntity s ->
  metadata s' = metadata s ->
  buildDiffRelationalColumns s' = buildDiffRelationalColumns s.
Proof.
  intros Hp Hd Hm. unfold buildDiffRelationalColumns. rewrite Hm.
  induction (allRelations (metadata s)) as [|r t IH]; simpl; [reflexivity|].
  rewrite IH.
  replace (relation_differs s' r) with (relation_differs s r); [reflexivity|].
  unfold relation_differs, relation_ids, entity, databaseEntity.
  now rewrite Hp, Hd.
Qed.

(** The relation filter returns when the identifier helper returns. *)
Lemma buildDiffRelationalColumns_total (s : Subject) :
  relation_helpers_return s ->
  exists rels, buildDiffRelationalColumns s = Ok rels.
Proof.
  intros Hr. apply filterM_total. intros r Hin.
  destruct (has_join_column r) eqn:Hj.
  - destruct (Hr r Hin Hj) as [[u dbId] Hids].
    rewrite (relation_differs_spec s r u dbId Hj Hids). eauto.
  - rewrite (relation_differs_skip s r Hj). eauto.
Qed.

Section DiffFacts.

Variable utils : DataTransformationUtils.
Variable JSON_stringify : value -> res value.
Variable getEntityValue : ColumnMetadata -> ObjectLiteral -> res value.

Local Abbreviation values_of :=
  (normalized_values utils JSON_stringify getEntityValue).
Local Abbreviation column_verdict :=
  (column_differs utils JSON_stringify getEntityValue).
Local Abbreviation diff_columns :=
  (buildDiffColumns utils JSON_stringify getEntityValue).

(** The verdict of the column callback, once the compared values are known:
    the column is kept when it is resolvable, not system-managed, its two
    values are not [===], and no relation value stands for it. *)
Lemma column_differs_spec (s : Subject) (e : ObjectLiteral) (c : ColumnMetadata)
      (ev dv : value) (b : bool) :
  _persistEntity s = Some e ->
  values_of s c = Ok (ev, dv) ->
  column_verdict s c = Ok b ->
  b = resolvable e c && negb (is_special c) && negb (strict_equals ev dv) &&
      match relation_object_present (metadata s) e c with
      | Ok r => negb r
      | Throw _ => false
      end.
Proof.
  intros He Hnv. unfold column_differs. rewrite Hnv. unfold entity. rewrite He.
  simpl.
  destruct (resolvable e c) eqn:Hr.
  - apply resolvable_spec in Hr as [H1 H2]. rewrite H1, H2. simpl.
    destruct (is_special c); simpl; [now intros [= <-]|].
    destruct (strict_equals ev dv); simpl; [now intros [= <-]|].
    destruct (relation_object_present (metadata s) e c) as [r|x]; simpl;
      [|discriminate].
    destruct r; now intros [= <-].
  - simpl.
    destruct (negb (isInEmbedded c) && is_undefined (get e (col_propertyName c)))
      eqn:H1; [now intros [= <-]|].
    destruct (embedded_undefined e c) as [u|x] eqn:H2; simpl; [|discriminate].
    destruct u; [now intros [= <-]|].
    assert (resolvable e c = true) by (apply resolvable_spec; auto).
    congruence.
Qed.

(** The column callback returns when the helpers return on the column and
    the container of an embedded column is not [null]. *)
Lemma column_differs_total (s : Subject) (e : ObjectLiteral) (c : ColumnMetadata)
      (nv : value * value) :
  _persistEntity s = Some e ->
  values_of s c = Ok nv ->
  embedded_readable e c = true ->
  exists b, column_verdict s c = Ok b.
Proof.
  intros He Hnv Hemb. unfold column_differs. rewrite Hnv. unfold entity.
  rewrite He. simpl.
  destruct (negb (isInEmbedded c) && is_undefined (get e (col_propertyName c)));
    eauto.
  destruct (embedded_undefined_total e c Hemb) as [u ->]. simpl.
  destruct u; eauto.
  destruct (is_special c || strict_equals (fst nv) (snd nv)); eauto.
  destruct (relation_object_present_total (metadata s) e c) as [r ->]. simpl.
  destruct r; eauto.
Qed.

(** A returning column callback has computed the compared values. *)
Lemma column_differs_values (s : Subject) (c : ColumnMetadata) (b : bool) :
  column_verdict s c = Ok b ->
  exists e d ev dv, _persistEntity s = Some e /\ _databaseEntity s = Some d /\
                    values_of s c = Ok (ev, dv).
Proof.
  unfold column_differs.
  destruct (values_of s c) as [[ev dv]|x] eqn:Hnv; simpl; [|discriminate].
  intros _. revert Hnv. unfold normalized_values, entity, databaseEntity.
  destruct (_persistEntity s) as [e|]; simpl; [|discriminate].
  destruct (getEntityValue c e); simpl; [|discriminate].
  destruct (_databaseEntity s) as [d|]; simpl; [|discriminate].
  intros _. now exists e, d, ev, dv.
Qed.

(** The column filter reads the two entities and the metadata only: the
    other fields of the subject, the stored [diffColumns] and
    [diffRelations] among them, do not influence it. *)
Lemma buildDiffColumns_frame (s s' : Subject) :
  _persistEntity s' = _persistEntity s ->
  _databaseEntity s' = _databaseEntity s ->
  metadata s' = metadata s ->
  diff_columns s' = diff_columns s.
Proof.
  intros Hp Hd Hm. unfold buildDiffColumns. rewrite Hm.
  induction (allColumns (metadata s)) as [|c t IH]; simpl; [reflexivity|].
  rewrite IH.
  replace (column_verdict s' c) with (column_verdict s c); [reflexivity|].
  unfold column_differs, normalized_values, entity, databaseEntity.
  now rewrite Hp, Hd, Hm.
Qed.

(** The column filter returns when its helpers return and no embedded
    container is [null]. *)
Lemma buildDiffColumns_total (s : Subject) (e : ObjectLiteral) :
  _persistEntity s = Some e ->
  column_helpers_return utils JSON_stringify getEntityValue s ->
  embedded_containers_readable s e ->
  exists cols, diff_columns s = Ok cols.
Proof.
  intros He Hc Hemb. apply filterM_total. intros c Hin.
  destruct (Hc c Hin) as [nv Hnv]. eapply column_differs_total; eauto.
Qed.

(** Both filters return when the helpers return and no embedded container
    is [null]. *)
Lemma diff_filters_total (s : Subject) (e d : ObjectLiteral) :
  _persistEntity s = Some e ->
  _databaseEntity s = Some d ->
  helpers_return utils JSON_stringify getEntityValue s ->
  embedded_containers_readable s e ->
  exists cols rels,
    diff_columns s = Ok cols /\ buildDiffRelationalColumns s = Ok rels.
Proof.
  intros He Hd [Hc Hr] Hemb.
  destruct (buildDiffColumns_total s e He Hc Hemb) as [cols Hcols].
  destruct (buildDiffRelationalColumns_total s Hr) as [rels Hrels].
  now exists cols, rels.
Qed.

End DiffFacts.

(** *** The setter of the database entity *)

Section SetterFacts.

Variable utils : DataTransformationUtils.
Variable JSON_stringify : value -> res value.
Variable getEntityValue : ColumnMetadata -> ObjectLiteral -> res value.

Local Abbreviation diff_columns :=
  (buildDiffColumns utils JSON_stringify getEntityValue).
Local Abbreviation assign :=
  (set_databaseEntity utils JSON_stringify getEntityValue).

(** C4. On a subject that holds a desired entity, assigning a snapshot
    stores it and, when the two diff filters return on the subject holding
    that snapshot, the assignment returns with [diffColumns] and
    [diffRelations] set to their results. The stored lists are then what
    the filters return on the subject the assignment leaves, with no other
    call. The assignment returns exactly when both filters do, which is the
    case when the helpers return and no embedded container is [null]; the
    fields other than the snapshot and the two lists keep their values. *)
Theorem set_databaseEntity_recomputes (s : Subject) (e d : ObjectLiteral) :
  _persistEntity s = Some e ->
  let s1 := with_databaseEntity s (Some d) in
  let r := assign s (Some d) in
  let s' := snd r in
  _databaseEntity s' = Some d /\
  (forall cols rels,
     diff_columns s1 = Ok cols ->
     buildDiffRelationalColumns s1 = Ok rels ->
     fst r = Ok tt /\ diffColumns s' = cols /\ diffRelations s' = rels) /\
  (fst r = Ok tt ->
     diff_columns s' = Ok (diffColumns s') /\
     buildDiffRelationalColumns s' = Ok (diffRelations s')) /\
  (fst r = Ok tt <->
     exists cols rels,
       diff_columns s1 = Ok cols /\ buildDiffRelationalColumns s1 = Ok rels) /\
  (helpers_return utils JSON_stringify getEntityValue s1 ->
   embedded_containers_readable s1 e ->
   fst r = Ok tt) /\
  (_persistEntity s' = Some e /\ metadata s' = metadata s /\ date s' = date s /\
   canBeInserted s' = canBeInserted s /\ canBeUpdated s' = canBeUpdated s /\
   mustBeRemoved s' = mustBeRemoved s /\
   relationUpdates s' = relationUpdates s /\
   junctionInserts s' = junctionInserts s /\
   junctionRemoves s' = junctionRemoves s /\
   newlyGeneratedId s' = newlyGeneratedId s /\
   parentGeneratedId s' = parentGeneratedId s /\ treeLevel s' = treeLevel s).
Proof.
  intros He s1 r s'.
  assert (Hframe : forall cols,
             buildDiffRelationalColumns (with_diffColumns s1 cols)
             = buildDiffRelationalColumns s1)
    by (intros; now apply buildDiffRelationalColumns_frame).
  assert (Hr : r = match diff_columns s1 with
                   | Throw x => (Throw x, s1)
                   | Ok cols =>
                       match buildDiffRelationalColumns s1 with
                       | Throw x => (Throw x, with_diffColumns s1 cols)
                       | Ok rels =>
                           (Ok tt, with_diffRelations (with_diffColumns s1 cols) rels)
                       end
                   end).
  { subst r. unfold set_databaseEntity, hasEntity. fold s1. simpl. rewrite He.
    simpl. destruct (diff_columns s1) as [cols|x]; [|reflexivity].
    now rewrite Hframe. }
  assert (Hcols : forall s2, _persistEntity s2 = _persistEntity s1 ->
                             _databaseEntity s2 = _databaseEntity s1 ->
                             metadata s2 = metadata s1 ->
                             diff_columns s2 = diff_columns s1 /\
                             buildDiffRelationalColumns s2
                             = buildDiffRelationalColumns s1).
  { intros s2 H1 H2 H3. split.
    - now apply buildDiffColumns_frame.
    - now apply buildDiffRelationalColumns_frame. }
  subst s'. rewrite Hr. clear Hr r.
  destruct (diff_columns s1) as [cols|x] eqn:Ec;
    [destruct (buildDiffRelationalColumns s1) as [rels|x] eqn:Er|]; simpl.
  - destruct (Hcols (with_diffRelations (with_diffColumns s1 cols) rels)
                    eq_refl eq_refl eq_refl) as [Hc' Hr'].
    split; [reflexivity|]. split.
    { intros cols' rels' [= <-] [= <-]. auto. }
    split; [intros _; rewrite Hc', Hr'; simpl; auto|].
    split; [split; [intros _; now exists cols, rels|reflexivity]|].
    split; [reflexivity|]. repeat split; assumption.
  - split; [reflexivity|]. split.
    { intros cols' rels' _ H. discriminate H. }
    split; [discriminate|].
    split; [split; [discriminate|intros (c' & r' & _ & H); discriminate H]|].
    split; [|repeat split; assumption].
    intros Hh Hemb.
    destruct (diff_filters_total utils JSON_stringify getEntityValue
                s1 e d He eq_refl Hh Hemb) as (c' & r' & _ & H).
    rewrite Er in H. discriminate H.
  - split; [reflexivity|]. split.
    { intros cols' rels' H. discriminate H. }
    split; [discriminate|].
    split; [split; [discriminate|intros (c' & r' & H & _); discriminate H]|].
    split; [|repeat split; assumption].
    intros Hh Hemb.
    destruct (diff_filters_total utils JSON_stringify getEntityValue
                s1 e d He eq_refl Hh Hemb) as (c' & r' & H & _).
    rewrite Ec in H. discriminate H.
Qed.

(** C10. On a subject without a desired entity, assigning a snapshot stores
    it, so that [hasDatabaseEntity] holds, returns without a throw, and
    leaves every other field, [diffColumns] and [diffRelations] included,
    as it was. *)
Theorem set_databaseEntity_without_entity (s : Subject) (d : ObjectLiteral) :
  hasEntity s = false ->
  let r := assign s (Some d) in
  let s' := snd r in
  fst r = Ok tt /\
  _databaseEntity s' = Some d /\ hasDatabaseEntity s' = true /\
  diffColumns s' = diffColumns s /\ diffRelations s' = diffRelations s /\
  _persistEntity s' = _persistEntity s /\ metadata s' = metadata s /\
  date s' = date s /\
  canBeInserted s' = canBeInserted s /\ canBeUpdated s' = canBeUpdated s /\
  mustBeRemoved s' = mustBeRemoved s /\
  relationUpdates s' = relationUpdates s /\
  junctionInserts s' = junctionInserts s /\
  junctionRemoves s' = junctionRemoves s /\
  newlyGeneratedId s' = newlyGeneratedId s /\
  parentGeneratedId s' = parentGeneratedId s /\ treeLevel s' = treeLevel s.
Proof.
  intros He. unfold set_databaseEntity.
  replace (hasEntity (with_databaseEntity s (Some d))) with false
    by (rewrite <- He; reflexivity).
  simpl. repeat split.
Qed.

End SetterFacts.

(** *** The column diff *)

Section ColumnDiff.

Variable utils : DataTransformationUtils.
Variable JSON_stringify : value -> res value.
Variable getEntityValue : ColumnMetadata -> ObjectLiteral -> res value.

Local Abbreviation values_of :=
  (normalized_values utils JSON_stringify getEntityValue).
Local Abbreviation column_verdict :=
  (column_differs utils JSON_stringify getEntityValue).
Local Abbreviation diff_columns :=
  (buildDiffColumns utils JSON_stringify getEntityValue).

(** Membership in the column diff, by the verdict of the callback. *)
Lemma buildDiffColumns_In (s : Subject) (e : ObjectLiteral)
      (cols : list ColumnMetadata) (c : ColumnMetadata) :
  _persistEntity s = Some e ->
  diff_columns s = Ok cols ->
  In c (allColumns (metadata s)) ->
  exists ev dv rp,
    values_of s c = Ok (ev, dv) /\
    relation_object_present (metadata s) e c = Ok rp /\
    (In c cols <->
     resolvable e c && negb (is_special c) && negb (strict_equals ev dv) &&
     negb rp = true).
Proof.
  intros He Hcols Hin.
  destruct (filterM_each _ _ _ Hcols c Hin) as [b Hb].
  destruct (column_differs_values _ _ _ s c b Hb) as (e' & d & ev & dv & He' & _ & Hv).
  destruct (relation_object_present_total (metadata s) e c) as [rp Hrp].
  exists ev, dv, rp. repeat split; auto.
  - intros Hc. apply (filterM_In _ _ _ Hcols) in Hc as [_ Hc].
    rewrite Hb in Hc. injection Hc as ->.
    rewrite (column_differs_spec _ _ _ s e c ev dv true He Hv Hb), Hrp.
    reflexivity.
  - intros Ht. apply (filterM_In _ _ _ Hcols). split; [exact Hin|].
    rewrite Hb. f_equal.
    rewrite (column_differs_spec _ _ _ s e c ev dv b He Hv Hb), Hrp.
    exact Ht.
Qed.

(** The column diff in full: on a subject with both entities, a column
    is in the result exactly when it is a column of the entity, its raw
    value is resolvable on the desired entity, it is not system-managed, its
    two compared values are not [===], and, for a plain column named after a
    relation that stores a foreign key, the property of that relation is
    [null] or [undefined] on the desired entity. *)
Lemma buildDiffColumns_member (s : Subject) (e d : ObjectLiteral)
        (cols : list ColumnMetadata) (c : ColumnMetadata) :
  _persistEntity s = Some e ->
  _databaseEntity s = Some d ->
  diff_columns s = Ok cols ->
  (In c cols <->
   In c (allColumns (metadata s)) /\
   resolvable e c = true /\
   is_special c = false /\
   (exists ev dv, values_of s c = Ok (ev, dv) /\ strict_equals ev dv = false) /\
   (isInEmbedded c = false ->
    forall r, findRelationWithDbName (metadata s) (col_propertyName c) = Some r ->
              is_nullish (get e (rel_propertyName r)) = true)).
Proof.
  intros He Hd Hcols. split.
  - intros Hc.
    assert (Hin : In c (allColumns (metadata s)))
      by (apply (filterM_In _ _ _ Hcols) in Hc; tauto).
    destruct (buildDiffColumns_In
                s e cols c He Hcols Hin) as (ev & dv & rp & Hv & Hrp & Hiff).
    apply Hiff in Hc. rewrite !andb_true_iff, !negb_true_iff in Hc.
    destruct Hc as [[[Hres Hsp] Heq] Hrel].
    repeat split; auto.
    + now exists ev, dv.
    + now apply (relation_object_present_false _ _ _ _ Hrp).
  - intros (Hin & Hres & Hsp & (ev & dv & Hv & Heq) & Hrel).
    destruct (buildDiffColumns_In
                s e cols c He Hcols Hin) as (ev' & dv' & rp & Hv' & Hrp & Hiff).
    rewrite Hv in Hv'. injection Hv' as <- <-.
    apply Hiff. rewrite Hres, Hsp, Heq. simpl.
    apply negb_true_iff. now apply (relation_object_present_false _ _ _ _ Hrp).
Qed.

(** The compared values, from the raw values and their normalization. *)
Lemma normalized_values_eq (s : Subject) (e d : ObjectLiteral) (c : ColumnMetadata)
      (ev dv : value) :
  _persistEntity s = Some e ->
  _databaseEntity s = Some d ->
  getEntityValue c e = Ok ev ->
  getEntityValue c d = Ok dv ->
  values_of s c = normalize utils JSON_stringify c ev dv.
Proof.
  intros He Hd Hev Hdv. unfold normalized_values, entity, databaseEntity.
  rewrite He. simpl. rewrite Hev. simpl. rewrite Hd. simpl. now rewrite Hdv.
Qed.

(** C5. On a subject with both entities the column diff returns when its
    helpers return and no embedded container is [null], and a column of its
    result is neither virtual, parent-id, discriminator, update-date, version
    nor create-date, and has a raw value resolvable on the desired entity:
    [entity[propertyName]] is not [undefined] for a plain column;
    [entity[embeddedProperty]] and [entity[embeddedProperty][propertyName]]
    are not [undefined] for an embedded one. *)
Theorem buildDiffColumns_excludes (s : Subject) (e d : ObjectLiteral) :
  _persistEntity s = Some e ->
  _databaseEntity s = Some d ->
  (column_helpers_return utils JSON_stringify getEntityValue s ->
   embedded_containers_readable s e ->
   exists cols, diff_columns s = Ok cols) /\
  (forall cols c,
     diff_columns s = Ok cols ->
     In c cols ->
     (isVirtual c = false /\ isParentId c = false /\ isDiscriminator c = false /\
      isUpdateDate c = false /\ isVersion c = false /\ isCreateDate c = false) /\
     (isInEmbedded c = false -> get e (col_propertyName c) <> VUndefined) /\
     (isInEmbedded c = true ->
      get e (embeddedProperty c) <> VUndefined /\
      exists v, get_prop (get e (embeddedProperty c)) (col_propertyName c) = Ok v /\
                v <> VUndefined)).
Proof.
  intros He Hd. split.
  { intros Hh Hemb.
    exact (buildDiffColumns_total utils JSON_stringify getEntityValue s e He Hh Hemb). }
  intros cols c Hcols Hc.
  assert (Hin : In c (allColumns (metadata s)))
    by (apply (filterM_In _ _ _ Hcols) in Hc; tauto).
  destruct (buildDiffColumns_In s e cols c He Hcols Hin)
    as (ev & dv & rp & _ & _ & Hiff).
  apply Hiff in Hc. repeat rewrite andb_true_iff in Hc.
  destruct Hc as [[[Hres Hsp] _] _].
  apply negb_true_iff in Hsp. unfold is_special in Hsp.
  repeat rewrite orb_false_iff in Hsp.
  split; [tauto|]. unfold resolvable in Hres. split.
  - intros Hemb. rewrite Hemb in Hres. intros Hu. now rewrite Hu in Hres.
  - intros Hemb. rewrite Hemb in Hres. apply andb_true_iff in Hres as [H1 H2].
    split.
    + intros Hu. now rewrite Hu in H1.
    + destruct (get_prop (get e (embeddedProperty c)) (col_propertyName c))
        as [v|x]; [|discriminate].
      exists v. split; [reflexivity|]. intros ->. discriminate H2.
Qed.

(** What the column diff has compared for a column, from the two values
    its callback ended up with. *)
Lemma compared_as_values (s : Subject) (e d : ObjectLiteral)
      (cols : list ColumnMetadata) (c : ColumnMetadata) (a b : value) :
  _persistEntity s = Some e ->
  _databaseEntity s = Some d ->
  diff_columns s = Ok cols ->
  In c (allColumns (metadata s)) ->
  values_of s c = Ok (a, b) ->
  compared_as utils JSON_stringify getEntityValue s e cols c a b.
Proof.
  intros He Hd Hcols Hin Hv. split; [exact Hv|].
  rewrite (buildDiffColumns_member s e d cols c He Hd Hcols).
  unfold diffable, no_relation_value. rewrite andb_true_iff, negb_true_iff.
  split.
  - intros (_ & Hres & Hsp & (ev' & dv' & Hv' & Hne) & Hrel).
    rewrite Hv in Hv'. injection Hv' as <- <-. auto.
  - intros ([Hres Hsp] & Hne & Hrel). repeat split; auto. now exists a, b.
Qed.

(** A column diff that returns has ended up with two compared values on
    each column. *)
Lemma buildDiffColumns_values (s : Subject) (cols : list ColumnMetadata)
      (c : ColumnMetadata) :
  diff_columns s = Ok cols ->
  In c (allColumns (metadata s)) ->
  exists a b, values_of s c = Ok (a, b).
Proof.
  intros Hcols Hin.
  destruct (filterM_each _ _ _ Hcols c Hin) as [v Hv].
  destruct (column_differs_values _ _ _ s c v Hv) as (_ & _ & a & b & _ & _ & Hab).
  now exists a, b.
Qed.

(** C8. In the column diff of a subject with both entities, take a column
    whose entity-side raw value is neither [null] nor [undefined]. For a
    datetime column the diff has converted both raw values, with the local
    conversion under [loadInLocalTimezone] and with the UTC conversion
    otherwise, and has compared the two converted values; for a date and for
    a time column it has converted the entity-side value only and has
    compared it with the database-side value as stored. Hence a datetime
    column without [loadInLocalTimezone] whose two values convert to the
    same UTC datetime string is not in the column diff. *)
Theorem datetime_both_sides (s : Subject) (e d : ObjectLiteral)
        (cols : list ColumnMetadata) (c : ColumnMetadata) (ev dv : value) :
  _persistEntity s = Some e ->
  _databaseEntity s = Some d ->
  diff_columns s = Ok cols ->
  In c (allColumns (metadata s)) ->
  getEntityValue c e = Ok ev ->
  getEntityValue c d = Ok dv ->
  is_nullish ev = false ->
  (col_type c = DATETIME -> loadInLocalTimezone c = true ->
   exists ev' dv',
     mixedDateToDatetimeString utils ev = Ok ev' /\
     mixedDateToDatetimeString utils dv = Ok dv' /\
     compared_as utils JSON_stringify getEntityValue s e cols c ev' dv') /\
  (col_type c = DATETIME -> loadInLocalTimezone c = false ->
   exists ev' dv',
     mixedDateToUtcDatetimeString utils ev = Ok ev' /\
     mixedDateToUtcDatetimeString utils dv = Ok dv' /\
     compared_as utils JSON_stringify getEntityValue s e cols c ev' dv') /\
  (col_type c = DATE ->
   exists ev',
     mixedDateToDateString utils ev = Ok ev' /\
     compared_as utils JSON_stringify getEntityValue s e cols c ev' dv) /\
  (col_type c = TIME ->
   exists ev',
     mixedDateToTimeString utils ev = Ok ev' /\
     compared_as utils JSON_stringify getEntityValue s e cols c ev' dv) /\
  (col_type c = DATETIME -> loadInLocalTimezone c = false ->
   forall utc : string,
     mixedDateToUtcDatetimeString utils ev = Ok (VString utc) ->
     mixedDateToUtcDatetimeString utils dv = Ok (VString utc) ->
     ~ In c cols).
Proof.
  intros He Hd Hcols Hin Hev Hdv Hnn.
  destruct (buildDiffColumns_values s cols c Hcols Hin) as (a & b & Hab).
  pose proof (compared_as_values s e d cols c a b He Hd Hcols Hin Hab) as Hcmp.
  pose proof (normalized_values_eq s e d c ev dv He Hd Hev Hdv) as Hv.
  rewrite Hab in Hv. apply is_nullish_false in Hnn as [Hu Hn].
  unfold normalize in Hv. rewrite Hu, Hn in Hv. simpl in Hv.
  assert (Hlocal : col_type c = DATETIME -> loadInLocalTimezone c = true ->
            exists ev' dv',
              mixedDateToDatetimeString utils ev = Ok ev' /\
              mixedDateToDatetimeString utils dv = Ok dv' /\
              compared_as utils JSON_stringify getEntityValue s e cols c ev' dv').
  { intros Ht Hl. rewrite Ht, Hl in Hv.
    destruct (mixedDateToDatetimeString utils ev) as [ev'|x]; [|discriminate].
    destruct (mixedDateToDatetimeString utils dv) as [dv'|x]; [|discriminate].
    simpl in Hv. injection Hv as -> ->. now exists ev', dv'. }
  assert (Hutc : col_type c = DATETIME -> loadInLocalTimezone c = false ->
            exists ev' dv',
              mixedDateToUtcDatetimeString utils ev = Ok ev' /\
              mixedDateToUtcDatetimeString utils dv = Ok dv' /\
              compared_as utils JSON_stringify getEntityValue s e cols c ev' dv').
  { intros Ht Hl. rewrite Ht, Hl in Hv.
    destruct (mixedDateToUtcDatetimeString utils ev) as [ev'|x]; [|discriminate].
    destruct (mixedDateToUtcDatetimeString utils dv) as [dv'|x]; [|discriminate].
    simpl in Hv. injection Hv as -> ->. now exists ev', dv'. }
  split; [exact Hlocal|]. split; [exact Hutc|]. split; [|split].
  - intros Ht. rewrite Ht in Hv.
    destruct (mixedDateToDateString utils ev) as [ev'|x]; [|discriminate].
    simpl in Hv. injection Hv as -> ->. now exists ev'.
  - intros Ht. rewrite Ht in Hv.
    destruct (mixedDateToTimeString utils ev) as [ev'|x]; [|discriminate].
    simpl in Hv. injection Hv as -> ->. now exists ev'.
  - intros Ht Hl utc Hue Hud Hc.
    destruct (Hutc Ht Hl) as (ev' & dv' & Hue' & Hud' & _ & Hiff).
    rewrite Hue in Hue'. rewrite Hud in Hud'.
    injection Hue' as <-. injection Hud' as <-.
    apply Hiff in Hc as (_ & Hne & _). simpl in Hne.
    now rewrite String.eqb_refl in Hne.
Qed.

(** C9 (as the code has it). When no embedded container is [null], the
    compared values of every diffable column are [===] and the two
    identifiers of every many-to-one or owning one-to-one relation are
    [===], both diff filters return the empty list; a subject with that
    entity and that metadata to which the snapshot is then assigned has
    [mustBeUpdated] false, whatever [canBeUpdated] is. *)
Theorem diff_idempotent (s : Subject) (e d : ObjectLiteral) :
  _persistEntity s = Some e ->
  _databaseEntity s = Some d ->
  embedded_containers_readable s e ->
  columns_equal utils JSON_stringify getEntityValue strict_equals s e ->
  relations_equal strict_equals s ->
  diff_columns s = Ok [] /\
  buildDiffRelationalColumns s = Ok [] /\
  (forall s0 : Subject,
     _persistEntity s0 = Some e -> metadata s0 = metadata s ->
     let r := set_databaseEntity utils JSON_stringify getEntityValue s0 (Some d) in
     fst r = Ok tt /\ diffColumns (snd r) = [] /\ diffRelations (snd r) = [] /\
     mustBeUpdated (snd r) = false).
Proof.
  intros He Hd Hemb Hcols Hrels.
  assert (Hc : diff_columns s = Ok []).
  { apply filterM_none. intros c Hin.
    destruct (Hcols c Hin) as (ev & dv & Hv & Heq).
    destruct (column_differs_total _ _ _ s e c (ev, dv) He Hv (Hemb c Hin))
      as [b Hb].
    rewrite Hb. f_equal.
    rewrite (column_differs_spec _ _ _ s e c ev dv b He Hv Hb).
    unfold diffable in Heq.
    destruct (resolvable e c && negb (is_special c)); simpl; [|reflexivity].
    now rewrite Heq. }
  assert (Hr : buildDiffRelationalColumns s = Ok []).
  { apply filterM_none. intros r Hin.
    destruct (has_join_column r) eqn:Hj.
    - destruct (Hrels r Hin Hj) as (u & dbId & Hids & Heq).
      rewrite (relation_differs_spec s r u dbId Hj Hids).
      unfold ids_differ. rewrite Heq. now rewrite andb_false_r.
    - now apply relation_differs_skip. }
  split; [exact Hc|]. split; [exact Hr|].
  intros s0 He0 Hm0 r.
  assert (Hc0 : diff_columns (with_databaseEntity s0 (Some d)) = Ok []).
  { rewrite <- Hc. apply buildDiffColumns_frame; simpl; congruence. }
  assert (Hr0 : buildDiffRelationalColumns (with_databaseEntity s0 (Some d)) = Ok []).
  { rewrite <- Hr. apply buildDiffRelationalColumns_frame; simpl; congruence. }
  subst r. unfold set_databaseEntity, hasEntity. simpl. rewrite He0. simpl.
  rewrite Hc0.
  rewrite (buildDiffRelationalColumns_frame
             (with_databaseEntity s0 (Some d))
             (with_diffColumns (with_databaseEntity s0 (Some d)) []))
    by reflexivity.
  rewrite Hr0. simpl. unfold mustBeUpdated. simpl.
  now rewrite andb_false_r.
Qed.

End ColumnDiff.

(** *** The relation diff *)

(** Membership in the relation diff, by the verdict of the callback. *)
Lemma buildDiffRelationalColumns_In (s : Subject) (rels : list RelationMetadata)
      (r : RelationMetadata) :
  buildDiffRelationalColumns s = Ok rels ->
  (In r rels <->
   In r (allRelations (metadata s)) /\ has_join_column r = true /\
   exists u dbId, relation_ids s r = Ok (u, dbId) /\ ids_differ u dbId = true).
Proof.
  intros Hrels. rewrite (filterM_In _ _ _ Hrels). split.
  - intros [Hin Hv]. split; [exact Hin|].
    destruct (has_join_column r) eqn:Hj.
    + split; [reflexivity|].
      destruct (relation_differs_ids s r true Hj Hv) as (u & dbId & Hids).
      exists u, dbId. split; [exact Hids|].
      rewrite (relation_differs_spec s r u dbId Hj Hids) in Hv. congruence.
    + rewrite (relation_differs_skip s r Hj) in Hv. discriminate Hv.
  - intros (Hin & Hj & u & dbId & Hids & Hd). split; [exact Hin|].
    rewrite (relation_differs_spec s r u dbId Hj Hids). now rewrite Hd.
Qed.

Lemma relation_ids_inv (s : Subject) (e d : ObjectLiteral) (r : RelationMetadata)
      (u dbId : value) :
  _persistEntity s = Some e ->
  _databaseEntity s = Some d ->
  (relation_ids s r = Ok (u, dbId) <->
   updatedEntityRelationId e r = Ok u /\ dbId = get d (rel_name r)).
Proof.
  intros He Hd. unfold relation_ids, entity, databaseEntity. rewrite He, Hd.
  simpl. destruct (updatedEntityRelationId e r) as [u'|x]; simpl.
  - split.
    + intros [= -> <-]. auto.
    + intros [[= ->] ->]. reflexivity.
  - split; [discriminate|intros [H _]; discriminate H].
Qed.

(** C7 (as the code has it). On a subject with both entities the relation
    diff returns when the identifier helper does, and a relation is in its
    result exactly when it is a relation of the entity, many-to-one or
    owning one-to-one, whose desired-side identifier (the mixed identifier
    of a nested object, the raw property value otherwise) is not
    [undefined], is not empty together with the database-side one, and is
    not [===] to it: scalars by content, composite identifiers by the
    identity of the object. A to-many relation is never in it, and a
    non-owning relation is not either when the descriptor is well formed. *)
Theorem buildDiffRelationalColumns_iff (s : Subject) (e d : ObjectLiteral) :
  _persistEntity s = Some e ->
  _databaseEntity s = Some d ->
  (relation_helpers_return s ->
   exists rels, buildDiffRelationalColumns s = Ok rels) /\
  (forall rels r,
     buildDiffRelationalColumns s = Ok rels ->
     (In r rels <->
      In r (allRelations (metadata s)) /\
      (isManyToOne r = true \/ (isOneToOne r = true /\ isOwning r = true)) /\
      exists u,
        updatedEntityRelationId e r = Ok u /\
        u <> VUndefined /\
        is_nullish u && is_nullish (get d (rel_name r)) = false /\
        strict_equals u (get d (rel_name r)) = false) /\
     (relation_wf r ->
      isOwning r = false \/ isOneToMany r = true \/ isManyToMany r = true ->
      ~ In r rels)).
Proof.
  intros He Hd. split; [apply buildDiffRelationalColumns_total|].
  intros rels r Hrels.
  assert (Hj : has_join_column r = true <->
               isManyToOne r = true \/ (isOneToOne r = true /\ isOwning r = true)).
  { unfold has_join_column. rewrite orb_true_iff, andb_true_iff. reflexivity. }
  assert (Hdiff : forall u dbId, ids_differ u dbId = true <->
                    u <> VUndefined /\ is_nullish u && is_nullish dbId = false /\
                    strict_equals u dbId = false).
  { intros u dbId. unfold ids_differ.
    rewrite !andb_true_iff, !negb_true_iff. split.
    - intros [[Hu Hb] Hs]. repeat split; auto. intros ->. discriminate Hu.
    - intros (Hu & Hb & Hs). repeat split; auto. destruct u; auto; congruence. }
  rewrite (buildDiffRelationalColumns_In s rels r Hrels). split.
  - rewrite Hj. split.
    + intros (Hin & Hc & u & dbId & Hids & Hdf).
      apply (relation_ids_inv s e d r u dbId He Hd) in Hids as [Hu ->].
      apply Hdiff in Hdf. split; [exact Hin|]. split; [exact Hc|]. now exists u.
    + intros (Hin & Hc & u & Hu & Hdf).
      split; [exact Hin|]. split; [exact Hc|].
      exists u, (get d (rel_name r)). split.
      * now apply (relation_ids_inv s e d r).
      * now apply Hdiff.
  - intros [Hmo Htm] Hcase (_ & Hc & _). apply Hj in Hc.
    destruct Hcase as [Ho|Hmany].
    + destruct Hc as [Hm|[_ Hown]]; [apply Hmo in Hm|]; congruence.
    + destruct (Htm Hmany) as [Hm Hoo].
      destruct Hc as [Hm'|[Hoo' _]]; congruence.
Qed.

Section RelationalColumns.

Variable utils : DataTransformationUtils.
Variable JSON_stringify : value -> res value.
Variable getEntityValue : ColumnMetadata -> ObjectLiteral -> res value.

Local Abbreviation values_of :=
  (normalized_values utils JSON_stringify getEntityValue).
Local Abbreviation diff_columns :=
  (buildDiffColumns utils JSON_stringify getEntityValue).

(** C6 (as the code has it). Take a plain column whose name is the
    database name of a many-to-one or owning one-to-one relation, on a
    subject with both entities; the column diff returns when its helpers
    return and no embedded container is [null]. When the desired entity
    holds at the property of that relation a value that is neither [null]
    nor [undefined], a nested object and a bare foreign-key value alike, the
    column is not in the column diff; a column that is diffable and whose
    compared values differ is in the column diff exactly when that property
    is [null] or [undefined]. With such a value at the property the column
    and the relation are never reported together, and the relation diff
    alone decides: the relation is in it exactly when its two identifiers
    differ. *)
Theorem relational_column_excluded (s : Subject) (e d : ObjectLiteral)
        (c : ColumnMetadata) (r : RelationMetadata) :
  _persistEntity s = Some e ->
  _databaseEntity s = Some d ->
  In c (allColumns (metadata s)) ->
  isInEmbedded c = false ->
  findRelationWithDbName (metadata s) (col_propertyName c) = Some r ->
  (column_helpers_return utils JSON_stringify getEntityValue s ->
   embedded_containers_readable s e ->
   exists cols, diff_columns s = Ok cols) /\
  (forall cols,
     diff_columns s = Ok cols ->
     (is_nullish (get e (rel_propertyName r)) = false -> ~ In c cols) /\
     (forall ev dv,
        values_of s c = Ok (ev, dv) ->
        diffable e c = true ->
        strict_equals ev dv = false ->
        (In c cols <-> is_nullish (get e (rel_propertyName r)) = true)) /\
     (forall rels,
        buildDiffRelationalColumns s = Ok rels ->
        is_nullish (get e (rel_propertyName r)) = false ->
        ~ (In c cols /\ In r rels) /\
        (In r rels <->
         exists u dbId,
           relation_ids s r = Ok (u, dbId) /\ ids_differ u dbId = true))).
Proof.
  intros He Hd Hin Hemb Hrel. split.
  { intros Hh Hc.
    exact (buildDiffColumns_total utils JSON_stringify getEntityValue s e He Hh Hc). }
  intros cols Hcols.
  destruct (buildDiffColumns_In utils JSON_stringify getEntityValue
              s e cols c He Hcols Hin) as (ev & dv & rp & Hv & Hrp & Hiff).
  rewrite (relation_object_present_found (metadata s) e c r Hemb Hrel) in Hrp.
  injection Hrp as <-. rewrite negb_involutive in Hiff.
  assert (Hex : is_nullish (get e (rel_propertyName r)) = false -> ~ In c cols).
  { intros Hn Hc. apply Hiff in Hc. rewrite Hn, andb_false_r in Hc.
    discriminate Hc. }
  split; [exact Hex|]. split.
  - intros ev' dv' Hv' Hdf Hne. rewrite Hv in Hv'. injection Hv' as <- <-.
    rewrite Hiff. unfold diffable in Hdf. rewrite Hdf, Hne. simpl. reflexivity.
  - intros rels Hrels Hn. split.
    + intros [Hc _]. now apply Hex.
    + destruct (findRelationWithDbName_sound _ _ _ Hrel) as (Hinr & Hj & _).
      rewrite (buildDiffRelationalColumns_In s rels r Hrels). tauto.
Qed.

End RelationalColumns.

(** *** The theorems on the sample posts *)

Lemma set_databaseEntity_recomputes_witness :
  _persistEntity (new_Subject postMetadata (Some updatedPost) None 0)
  = Some updatedPost /\
  let r := sample_assign (new_Subject postMetadata (Some updatedPost) None 0)
                         (Some storedPost) in
  fst r = Ok tt /\ diffColumns (snd r) = [favoritesColumn] /\
  diffRelations (snd r) = [].
Proof.
  split; [reflexivity|].
  apply (proj1 (proj2 (set_databaseEntity_recomputes
                         (utils_model 0) JSON_stringify_model getEntityValue_model
                         (new_Subject postMetadata (Some updatedPost) None 0)
                         updatedPost storedPost eq_refl))).
  - vm_compute. reflexivity.
  - vm_compute. reflexivity.
Defined.

Lemma set_databaseEntity_without_entity_witness :
  hasEntity orphan_subject = false /\
  let r := sample_assign orphan_subject (Some storedPost) in
  fst r = Ok tt /\ hasDatabaseEntity (snd r) = true /\
  diffColumns (snd r) = [titleColumn] /\ diffRelations (snd r) = [authorRelation].
Proof.
  split; [reflexivity|].
  destruct (set_databaseEntity_without_entity
              (utils_model 0) JSON_stringify_model getEntityValue_model
              orphan_subject storedPost eq_refl) as (H1 & _ & H3 & H4 & H5 & _).
  exact (conj H1 (conj H3 (conj H4 H5))).
Defined.

Lemma buildDiffColumns_excludes_witness :
  _persistEntity (post_subject updatedPost storedPost) = Some updatedPost /\
  _databaseEntity (post_subject updatedPost storedPost) = Some storedPost /\
  (exists cols, sample_columns (post_subject updatedPost storedPost) = Ok cols) /\
  sample_columns (post_subject updatedPost storedPost) = Ok [favoritesColumn] /\
  isVersion favoritesColumn = false /\
  get updatedPost (embeddedProperty favoritesColumn) <> VUndefined.
Proof.
  assert (Hcols : sample_columns (post_subject updatedPost storedPost)
                  = Ok [favoritesColumn]) by (vm_compute; reflexivity).
  destruct (buildDiffColumns_excludes
              (utils_model 0) JSON_stringify_model getEntityValue_model
              (post_subject updatedPost storedPost) updatedPost storedPost
              eq_refl eq_refl) as [Htotal Hspec].
  destruct (Hspec [favoritesColumn] favoritesColumn Hcols (or_introl eq_refl))
    as ((_ & _ & _ & _ & Hv & _) & _ & Hemb).
  destruct (Hemb eq_refl) as [Hc _].
  split; [reflexivity|]. split; [reflexivity|]. split.
  - apply Htotal.
    + intros c Hin. each_member Hin ltac:(eexists; reflexivity).
    + intros c Hin. each_member Hin reflexivity.
  - split; [exact Hcols|]. split; [exact Hv|exact Hc].
Defined.

Lemma datetime_both_sides_witness :
  _persistEntity (event_subject movedEvent) = Some loadedEvent /\
  _databaseEntity (event_subject movedEvent) = Some movedEvent /\
  event_columns (event_subject movedEvent) = Ok [opensAtColumn] /\
  In startsAtColumn (allColumns eventMetadata) /\
  getEntityValue_model startsAtColumn loadedEvent = Ok (VDate 61 1483264800000) /\
  getEntityValue_model startsAtColumn movedEvent = Ok (VDate 71 1483264800000) /\
  is_nullish (VDate 61 1483264800000) = false /\
  strict_equals (VDate 61 1483264800000) (VDate 71 1483264800000) = false /\
  (event_values (event_subject movedEvent) startsAtColumn
   = Ok (VString "2017-01-01 12:00:00", VString "2017-01-01 12:00:00") /\
   ~ In startsAtColumn [opensAtColumn]) /\
  (event_values (event_subject movedEvent) createdColumn
   = Ok (VString "2017-01-01 10:00:00", VString "2017-01-01 10:00:00") /\
   ~ In createdColumn [opensAtColumn]) /\
  (event_values (event_subject movedEvent) dayColumn
   = Ok (VString "2017-01-01", VString "2017-01-01") /\
   ~ In dayColumn [opensAtColumn]) /\
  (event_values (event_subject movedEvent) opensAtColumn
   = Ok (VString "12:00:00", VString "13:00:00") /\
   In opensAtColumn [opensAtColumn]).
Proof.
  assert (Hcols : event_columns (event_subject movedEvent) = Ok [opensAtColumn])
    by (vm_compute; reflexivity).
  assert (Hall : forall c, In c [startsAtColumn; createdColumn; dayColumn; opensAtColumn]
                           -> In c (allColumns eventMetadata)) by (intros c H; exact H).
  pose proof (fun c ev dv Hin =>
                datetime_both_sides
                  (utils_model 120) JSON_stringify_model getEntityValue_model
                  (event_subject movedEvent) loadedEvent movedEvent
                  [opensAtColumn] c ev dv eq_refl eq_refl Hcols (Hall c Hin)) as H.
  split; [reflexivity|]. split; [reflexivity|]. split; [exact Hcols|].
  split; [simpl; tauto|]. split; [reflexivity|]. split; [reflexivity|].
  split; [reflexivity|]. split; [reflexivity|].
  split; [|split; [|split]].
  - destruct (H startsAtColumn (VDate 61 1483264800000) (VDate 71 1483264800000)
                ltac:(simpl; tauto) eq_refl eq_refl eq_refl) as (Hlocal & _).
    destruct (Hlocal eq_refl eq_refl) as (ev' & dv' & He' & Hd' & Hv & Hiff).
    vm_compute in He'. vm_compute in Hd'.
    injection He' as <-. injection Hd' as <-.
    split; [exact Hv|]. intros Hc. apply Hiff in Hc as (_ & Hne & _).
    discriminate Hne.
  - destruct (H createdColumn (VDate 62 1483264800000) (VDate 72 1483264800000)
                ltac:(simpl; tauto) eq_refl eq_refl eq_refl)
      as (_ & Hutc & _ & _ & Hsame).
    destruct (Hutc eq_refl eq_refl) as (ev' & dv' & He' & Hd' & Hv & _).
    vm_compute in He'. vm_compute in Hd'.
    injection He' as <-. injection Hd' as <-.
    split; [exact Hv|].
    apply (Hsame eq_refl eq_refl "2017-01-01 10:00:00"); reflexivity.
  - destruct (H dayColumn (VDate 63 1483264800000) (VString "2017-01-01")
                ltac:(simpl; tauto) eq_refl eq_refl eq_refl)
      as (_ & _ & Hdate & _).
    destruct (Hdate eq_refl) as (ev' & He' & Hv & Hiff).
    vm_compute in He'. injection He' as <-.
    split; [exact Hv|]. intros Hc. apply Hiff in Hc as (_ & Hne & _).
    discriminate Hne.
  - destruct (H opensAtColumn (VDate 64 1483264800000) (VString "13:00:00")
                ltac:(simpl; tauto) eq_refl eq_refl eq_refl)
      as (_ & _ & _ & Htime & _).
    destruct (Htime eq_refl) as (ev' & He' & Hv & Hiff).
    vm_compute in He'. injection He' as <-.
    split; [exact Hv|]. apply Hiff. split; [reflexivity|].
    split; [reflexivity|]. intros _ r Hr. discriminate Hr.
Defined.

Lemma diff_idempotent_witness :
  _persistEntity (post_subject loadedPost storedPost) = Some loadedPost /\
  _databaseEntity (post_subject loadedPost storedPost) = Some storedPost /\
  embedded_containers_readable (post_subject loadedPost storedPost) loadedPost /\
  columns_equal (utils_model 0) JSON_stringify_model getEntityValue_model
                strict_equals (post_subject loadedPost storedPost) loadedPost /\
  relations_equal strict_equals (post_subject loadedPost storedPost) /\
  sample_columns (post_subject loadedPost storedPost) = Ok [] /\
  buildDiffRelationalColumns (post_subject loadedPost storedPost) = Ok [] /\
  mustBeUpdated
    (snd (sample_assign (post_subject loadedPost storedBareIdPost) (Some storedPost)))
  = false.
Proof.
  assert (Hemb : embedded_containers_readable
                   (post_subject loadedPost storedPost) loadedPost).
  { intros c Hin. each_member Hin reflexivity. }
  assert (Hcols : columns_equal (utils_model 0) JSON_stringify_model
                    getEntityValue_model strict_equals
                    (post_subject loadedPost storedPost) loadedPost).
  { intros c Hin. each_member Hin sample_column_equal. }
  assert (Hrels : relations_equal strict_equals (post_subject loadedPost storedPost)).
  { intros r Hin Hj. each_member Hin ltac:(sample_relation_equal Hj). }
  destruct (diff_idempotent
              (utils_model 0) JSON_stringify_model getEntityValue_model
              (post_subject loadedPost storedPost) loadedPost storedPost
              eq_refl eq_refl Hemb Hcols Hrels) as (Hc & Hr & Hset).
  destruct (Hset (post_subject loadedPost storedBareIdPost) eq_refl eq_refl)
    as (_ & _ & _ & Hm).
  repeat split; auto.
Defined.

Lemma buildDiffRelationalColumns_iff_witness :
  _persistEntity (post_subject bareIdPost storedBareIdPost) = Some bareIdPost /\
  _databaseEntity (post_subject bareIdPost storedBareIdPost) = Some storedBareIdPost /\
  (exists rels,
     buildDiffRelationalColumns (post_subject bareIdPost storedBareIdPost) = Ok rels) /\
  buildDiffRelationalColumns (post_subject bareIdPost storedBareIdPost)
  = Ok [authorRelation] /\
  relation_wf tagsRelation /\ ~ In tagsRelation [authorRelation] /\
  exists u,
    updatedEntityRelationId bareIdPost authorRelation = Ok u /\
    strict_equals u (get storedBareIdPost (rel_name authorRelation)) = false.
Proof.
  assert (Hrels : buildDiffRelationalColumns (post_subject bareIdPost storedBareIdPost)
                  = Ok [authorRelation]) by (vm_compute; reflexivity).
  assert (Hwf : relation_wf tagsRelation).
  { split; [discriminate|]. intros _. split; reflexivity. }
  destruct (buildDiffRelationalColumns_iff
              (post_subject bareIdPost storedBareIdPost)
              bareIdPost storedBareIdPost eq_refl eq_refl) as [Htotal Hspec].
  split; [reflexivity|]. split; [reflexivity|]. split.
  { apply Htotal. intros r Hin Hj.
    each_member Hin ltac:(first [eexists; reflexivity
                                |vm_compute in Hj; discriminate Hj]). }
  split; [exact Hrels|]. split; [exact Hwf|]. split.
  - apply (proj2 (Hspec [authorRelation] tagsRelation Hrels) Hwf).
    left. reflexivity.
  - destruct (proj1 (proj1 (Hspec [authorRelation] authorRelation Hrels))
                    (or_introl eq_refl))
      as (_ & _ & u & Hu & _ & _ & Hne).
    exists u. auto.
Defined.

Lemma relational_column_excluded_witness :
  _persistEntity (post_subject foreignKeyPost storedBareIdPost) = Some foreignKeyPost /\
  _databaseEntity (post_subject foreignKeyPost storedBareIdPost)
  = Some storedBareIdPost /\
  In authorIdColumn (allColumns postMetadata) /\
  isInEmbedded authorIdColumn = false /\
  findRelationWithDbName postMetadata (col_propertyName authorIdColumn)
  = Some authorRelation /\
  (exists cols,
     sample_columns (post_subject foreignKeyPost storedBareIdPost) = Ok cols) /\
  sample_columns (post_subject foreignKeyPost storedBareIdPost) = Ok [authorIdColumn] /\
  (In authorIdColumn [authorIdColumn] <->
   is_nullish (get foreignKeyPost (rel_propertyName authorRelation)) = true).
Proof.
  assert (Hcols : sample_columns (post_subject foreignKeyPost storedBareIdPost)
                  = Ok [authorIdColumn]) by (vm_compute; reflexivity).
  assert (Hin : In authorIdColumn (allColumns postMetadata))
    by (simpl; tauto).
  destruct (relational_column_excluded
              (utils_model 0) JSON_stringify_model getEntityValue_model
              (post_subject foreignKeyPost storedBareIdPost)
              foreignKeyPost storedBareIdPost authorIdColumn
              authorRelation eq_refl eq_refl Hin eq_refl eq_refl)
    as [Htotal Hspec].
  destruct (Hspec [authorIdColumn] Hcols) as (_ & Hiff & _).
  split; [reflexivity|]. split; [reflexivity|]. split; [exact Hin|].
  split; [reflexivity|]. split; [reflexivity|]. split.
  - apply Htotal.
    + intros c Hc. each_member Hc ltac:(eexists; reflexivity).
    + intros c Hc. each_member Hc reflexivity.
  - split; [exact Hcols|].
    exact (Hiff (VNumber 5) (VNumber 6) eq_refl eq_refl eq_refl).
Defined.

(** *** Where the code departs from a reading by value or by kind *)

(** C6, as first stated, fails on a post that names its author by a bare
    foreign-key value: the column [authorId] is diffable and its values
    differ, the property [author] holds the number 5 and no object, and the
    column is left out of the column diff all the same. *)
Lemma relational_column_bare_id_counterexample :
  sample_columns (post_subject bareIdPost storedBareIdPost) = Ok [] /\
  isInEmbedded authorIdColumn = false /\
  findRelationWithDbName postMetadata (col_propertyName authorIdColumn)
  = Some authorRelation /\
  sample_values (post_subject bareIdPost storedBareIdPost) authorIdColumn
  = Ok (VNumber 5, VNumber 6) /\
  diffable bareIdPost authorIdColumn = true /\
  strict_equals (VNumber 5) (VNumber 6) = false /\
  get bareIdPost (rel_propertyName authorRelation) = VNumber 5 /\
  ~ (~ In authorIdColumn [] <->
     instanceof_Object (get bareIdPost (rel_propertyName authorRelation)) = true).
Proof.
  repeat (split; [vm_compute; reflexivity|]).
  intros [H _]. assert (Hn : ~ In authorIdColumn []) by (intros []).
  apply H in Hn. vm_compute in Hn. discriminate Hn.
Qed.

(** C7, as first stated, fails on a post whose category has a two-column
    key: the identifier extracted from the nested object and the composite
    value of the snapshot are equal by value, and the relation is in the
    relation diff all the same, the two being distinct objects. *)
Lemma composite_identifier_counterexample :
  buildDiffRelationalColumns (post_subject categoryPost storedCategoryPost)
  = Ok [categoryRelation] /\
  relation_ids (post_subject categoryPost storedCategoryPost) categoryRelation
  = Ok (categoryId, storedCategoryId) /\
  same_value categoryId storedCategoryId = true /\
  strict_equals categoryId storedCategoryId = false /\
  ~ (In categoryRelation [categoryRelation] <->
     In categoryRelation (allRelations postMetadata) /\
     has_join_column categoryRelation = true /\
     ids_differ_by_value categoryId storedCategoryId = true).
Proof.
  repeat (split; [vm_compute; reflexivity|]).
  intros [H _]. destruct (H (or_introl eq_refl)) as (_ & _ & Hd).
  vm_compute in Hd. discriminate Hd.
Qed.

(** C9, as first stated, fails on the same post: every diffable column and
    every relation identifier is equal by value on the two sides, no
    embedded container is [null], and the relation diff is not empty; once
    the snapshot is assigned, [mustBeUpdated] holds. *)
Lemma value_equal_counterexample :
  columns_equal (utils_model 0) JSON_stringify_model getEntityValue_model
                same_value (post_subject categoryPost storedCategoryPost)
                categoryPost /\
  relations_equal same_value (post_subject categoryPost storedCategoryPost) /\
  embedded_containers_readable (post_subject categoryPost storedCategoryPost)
                               categoryPost /\
  sample_columns (post_subject categoryPost storedCategoryPost) = Ok [] /\
  buildDiffRelationalColumns (post_subject categoryPost storedCategoryPost)
  = Ok [categoryRelation] /\
  buildDiffRelationalColumns (post_subject categoryPost storedCategoryPost)
  <> Ok [] /\
  mustBeUpdated
    (snd (sample_assign (post_subject categoryPost storedBareIdPost)
                        (Some storedCategoryPost)))
  = true.
Proof.
  split.
  { intros c Hin. each_member Hin sample_column_equal. }
  split.
  { intros r Hin Hj. each_member Hin ltac:(sample_relation_equal Hj). }
  split.
  { intros c Hin. each_member Hin reflexivity. }
  repeat (split; [vm_compute; reflexivity|]).
  split; [|vm_compute; reflexivity].
  intros H. vm_compute in H. discriminate H.
Qed.

(* ------------------------------------------------------------------------- *)
(** ** Further properties of the subject *)
(* ------------------------------------------------------------------------- *)

(** *** More on the filter with a throwing callback *)

Lemma filterM_subsequence {A : Type} (f : A -> res bool) (l l' : list A) :
  filterM f l = Ok l' -> subsequence l' l.
Proof.
  revert l'. induction l as [|a t IH]; intros l' H.
  - injection H as <-. constructor.
  - apply filterM_cons_inv in H as (b & r & _ & Hr & ->).
    destruct b; [apply subsequence_keep|apply subsequence_skip]; auto.
Qed.

Lemma subsequence_length {A : Type} (l l' : list A) :
  subsequence l l' -> (List.length l <= List.length l')%nat.
Proof. induction 1; simpl; lia. Qed.

(** A throw of the filter is the throw of the callback on some element. *)
Lemma filterM_throw {A : Type} (f : A -> res bool) (l : list A) (x : exn) :
  filterM f l = Throw x -> exists a, In a l /\ f a = Throw x.
Proof.
  induction l as [|a t IH]; simpl; [discriminate|].
  destruct (f a) as [b|y] eqn:Ha; simpl.
  - destruct (filterM f t) as [r|y]; simpl; [discriminate|].
    intros [= ->]. destruct (IH eq_refl) as (a' & Hin & Ha'). eauto.
  - intros [= ->]. eauto.
Qed.

(** When every callback either returns or throws [x], a throw on some
    element makes the filter throw [x]. *)
Lemma filterM_throws {A : Type} (f : A -> res bool) (l : list A) (x : exn) :
  (forall a, In a l -> (exists b, f a = Ok b) \/ f a = Throw x) ->
  (exists a, In a l /\ f a = Throw x) ->
  filterM f l = Throw x.
Proof.
  induction l as [|a t IH]; intros Hall (a' & Hin & Ha').
  - destruct Hin.
  - simpl. destruct (Hall a (or_introl eq_refl)) as [[b Hb]| ->]; [|reflexivity].
    rewrite Hb. simpl. destruct Hin as [->|Hin]; [congruence|].
    rewrite IH; [reflexivity| |eauto].
    intros a0 H0. apply Hall. now right.
Qed.

Lemma strict_equals_null (v : value) : strict_equals VNull v = is_null v.
Proof. now destruct v. Qed.

Section ExtraColumnFacts.

Variable utils : DataTransformationUtils.
Variable JSON_stringify : value -> res value.
Variable getEntityValue : ColumnMetadata -> ObjectLiteral -> res value.

Local Abbreviation values_of :=
  (normalized_values utils JSON_stringify getEntityValue).
Local Abbreviation column_verdict :=
  (column_differs utils JSON_stringify getEntityValue).
Local Abbreviation diff_columns :=
  (buildDiffColumns utils JSON_stringify getEntityValue).

(** X1. The column diff in full: on a subject with both entities, a column
    is in the result exactly when it is a column of the entity, its raw
    value is resolvable on the desired entity, it is not system-managed, its
    two compared values are not [===], and, for a plain column named after a
    relation that stores a foreign key, the property of that relation is
    [null] or [undefined] on the desired entity. *)
Theorem buildDiffColumns_iff (s : Subject) (e d : ObjectLiteral)
        (cols : list ColumnMetadata) (c : ColumnMetadata) :
  _persistEntity s = Some e ->
  _databaseEntity s = Some d ->
  diff_columns s = Ok cols ->
  (In c cols <->
   In c (allColumns (metadata s)) /\
   resolvable e c = true /\
   is_special c = false /\
   (exists ev dv, values_of s c = Ok (ev, dv) /\ strict_equals ev dv = false) /\
   (isInEmbedded c = false ->
    forall r, findRelationWithDbName (metadata s) (col_propertyName c) = Some r ->
              is_nullish (get e (rel_propertyName r)) = true)).
Proof.
  intros He Hd Hcols.
  exact (buildDiffColumns_member utils JSON_stringify getEntityValue
           s e d cols c He Hd Hcols).
Qed.

(** X2. Both diffs keep the declaration order of the metadata: the result
    of each filter is its list of columns, or of relations, with some
    elements left out, and so is no longer than it. *)
Theorem diff_keeps_declaration_order (s : Subject) :
  (forall cols,
     diff_columns s = Ok cols ->
     subsequence cols (allColumns (metadata s)) /\
     (List.length cols <= List.length (allColumns (metadata s)))%nat) /\
  (forall rels,
     buildDiffRelationalColumns s = Ok rels ->
     subsequence rels (allRelations (metadata s)) /\
     (List.length rels <= List.length (allRelations (metadata s)))%nat).
Proof.
  split; intros l H; apply filterM_subsequence in H;
    (split; [exact H|now apply subsequence_length]).
Qed.

(** X3. Called on a subject that lacks an entity, the column diff does not
    return an empty list: without the desired entity it throws the error of
    the [entity] getter as soon as the metadata has a column, and with the
    desired entity but no database entity it throws the error of the
    [databaseEntity] getter once the raw value of the first column is
    read. Only a metadata without columns gives the empty list. *)
Theorem buildDiffColumns_without_entity (s : Subject) :
  (_persistEntity s = None ->
   diff_columns s = match allColumns (metadata s) with
                    | [] => Ok []
                    | _ :: _ => Throw entity_not_set
                    end) /\
  (forall e c t v,
     _persistEntity s = Some e ->
     _databaseEntity s = None ->
     allColumns (metadata s) = c :: t ->
     getEntityValue c e = Ok v ->
     diff_columns s = Throw databaseEntity_not_set).
Proof.
  split.
  - intros He. unfold buildDiffColumns.
    destruct (allColumns (metadata s)) as [|c t]; [reflexivity|].
    simpl. unfold column_differs, normalized_values, entity. now rewrite He.
  - intros e c t v He Hd Hall Hv. unfold buildDiffColumns. rewrite Hall. simpl.
    unfold column_differs, normalized_values, entity, databaseEntity.
    rewrite He. simpl. rewrite Hv. simpl. now rewrite Hd.
Qed.

End ExtraColumnFacts.

(** X4. Called on a subject that lacks an entity, the relation diff returns
    the empty list exactly when no relation of the metadata is many-to-one
    or owning one-to-one; otherwise it throws the error of the [entity]
    getter, or, when only the database entity is missing and the identifiers
    can be extracted, the error of the [databaseEntity] getter. *)
Theorem buildDiffRelationalColumns_without_entity (s : Subject) :
  (_persistEntity s = None ->
   buildDiffRelationalColumns s =
   if existsb has_join_column (allRelations (metadata s))
   then Throw entity_not_set else Ok []) /\
  (forall e,
     _persistEntity s = Some e ->
     _databaseEntity s = None ->
     (forall r, In r (allRelations (metadata s)) -> has_join_column r = true ->
                exists u, updatedEntityRelationId e r = Ok u) ->
     buildDiffRelationalColumns s =
     if existsb has_join_column (allRelations (metadata s))
     then Throw databaseEntity_not_set else Ok []).
Proof.
  assert (Hskip : forall r, has_join_column r = false ->
                            negb (isManyToOne r) && negb (isOneToOne r && isOwning r)
                            = true).
  { intros r. unfold has_join_column.
    destruct (isManyToOne r), (isOneToOne r && isOwning r); simpl; congruence. }
  assert (Hgo : forall r, has_join_column r = true ->
                          negb (isManyToOne r) && negb (isOneToOne r && isOwning r)
                          = false).
  { intros r. unfold has_join_column.
    destruct (isManyToOne r), (isOneToOne r && isOwning r); simpl; congruence. }
  split.
  - intros He. unfold buildDiffRelationalColumns.
    induction (allRelations (metadata s)) as [|r t IH]; [reflexivity|].
    simpl. unfold relation_differs at 1.
    destruct (has_join_column r) eqn:Hj; simpl.
    + rewrite (Hgo r Hj). unfold relation_ids, entity. now rewrite He.
    + rewrite (Hskip r Hj). simpl. rewrite IH.
      now destruct (existsb has_join_column t).
  - intros e He Hd. unfold buildDiffRelationalColumns.
    induction (allRelations (metadata s)) as [|r t IH]; intros Hu; [reflexivity|].
    simpl. unfold relation_differs at 1.
    destruct (has_join_column r) eqn:Hj; simpl.
    + rewrite (Hgo r Hj). unfold relation_ids, entity, databaseEntity.
      rewrite He. simpl.
      destruct (Hu r (or_introl eq_refl) Hj) as [u ->]. simpl. now rewrite Hd.
    + rewrite (Hskip r Hj). simpl.
      rewrite IH by (intros r' Hin; apply Hu; now right).
      now destruct (existsb has_join_column t).
Qed.

(** *** More on the setter *)

Section ExtraSetterFacts.

Variable utils : DataTransformationUtils.
Variable JSON_stringify : value -> res value.
Variable getEntityValue : ColumnMetadata -> ObjectLiteral -> res value.

Local Abbreviation diff_columns :=
  (buildDiffColumns utils JSON_stringify getEntityValue).
Local Abbreviation assign :=
  (set_databaseEntity utils JSON_stringify getEntityValue).

(** The setter, by the outcome of the two filters on the subject holding
    the new value. *)
Lemma set_databaseEntity_cases (s : Subject) (a : option ObjectLiteral) :
  let s1 := with_databaseEntity s a in
  assign s a =
  match _persistEntity s, a with
  | Some _, Some _ =>
      match diff_columns s1 with
      | Throw x => (Throw x, s1)
      | Ok cols =>
          match buildDiffRelationalColumns s1 with
          | Throw x => (Throw x, with_diffColumns s1 cols)
          | Ok rels => (Ok tt, with_diffRelations (with_diffColumns s1 cols) rels)
          end
      end
  | _, _ => (Ok tt, s1)
  end.
Proof.
  intros s1. unfold set_databaseEntity, hasEntity. fold s1.
  replace (_persistEntity s1) with (_persistEntity s) by reflexivity.
  destruct (_persistEntity s) as [e|]; [|reflexivity].
  destruct a as [d|]; [|reflexivity]. simpl.
  destruct (diff_columns s1) as [cols|x]; [|reflexivity].
  now rewrite (buildDiffRelationalColumns_frame s1 (with_diffColumns s1 cols)).
Qed.

(** Whatever its outcome, the setter stores its argument and leaves the
    desired entity, the metadata and the removal flag alone. *)
Lemma set_databaseEntity_fields (s : Subject) (a : option ObjectLiteral) :
  _databaseEntity (snd (assign s a)) = a /\
  _persistEntity (snd (assign s a)) = _persistEntity s /\
  metadata (snd (assign s a)) = metadata s /\
  mustBeRemoved (snd (assign s a)) = mustBeRemoved s.
Proof.
  rewrite set_databaseEntity_cases. cbv zeta.
  destruct (_persistEntity s) as [e|] eqn:He; [destruct a as [d|]|]; simpl; auto.
  destruct (diff_columns (with_databaseEntity s (Some d))) as [cols|x]; simpl; auto.
  destruct (buildDiffRelationalColumns (with_databaseEntity s (Some d)))
    as [rels|x]; simpl; auto.
Qed.

(** X5. Assigning a falsy value in place of a snapshot clears the database
    entity and returns without running a filter: [hasDatabaseEntity] is
    false afterwards, [mustBeInserted] is [canBeInserted], and
    [diffColumns] and [diffRelations] keep what they held, as every other
    field does. *)
Theorem set_databaseEntity_falsy (s : Subject) :
  let r := assign s None in
  let s' := snd r in
  fst r = Ok tt /\
  _databaseEntity s' = None /\ hasDatabaseEntity s' = false /\
  mustBeInserted s' = canBeInserted s /\
  diffColumns s' = diffColumns s /\ diffRelations s' = diffRelations s /\
  mustBeUpdated s' = mustBeUpdated s /\
  _persistEntity s' = _persistEntity s /\ metadata s' = metadata s /\
  date s' = date s /\ canBeInserted s' = canBeInserted s /\
  canBeUpdated s' = canBeUpdated s /\ mustBeRemoved s' = mustBeRemoved s /\
  relationUpdates s' = relationUpdates s /\
  junctionInserts s' = junctionInserts s /\
  junctionRemoves s' = junctionRemoves s /\
  newlyGeneratedId s' = newlyGeneratedId s /\
  parentGeneratedId s' = parentGeneratedId s /\ treeLevel s' = treeLevel s.
Proof.
  cbv zeta. rewrite set_databaseEntity_cases.
  replace (match _persistEntity s with Some _ | _ => _ end)
    with (Ok tt, with_databaseEntity s None)
    by (now destruct (_persistEntity s)).
  simpl. unfold mustBeInserted. simpl. rewrite andb_true_r. repeat split.
Qed.

(** X6. A throw inside the setter keeps the writes made before it. When
    the column filter throws, the setter throws the same, the snapshot is
    stored and both lists keep their former content; when the column filter
    returns and the relation filter throws, the setter throws the same, the
    snapshot and the new [diffColumns] are stored and [diffRelations] keeps
    its former content. *)
Theorem set_databaseEntity_throw (s : Subject) (e d : ObjectLiteral) (x : exn) :
  _persistEntity s = Some e ->
  let s1 := with_databaseEntity s (Some d) in
  let r := assign s (Some d) in
  let s' := snd r in
  (diff_columns s1 = Throw x ->
   fst r = Throw x /\ _databaseEntity s' = Some d /\
   diffColumns s' = diffColumns s /\ diffRelations s' = diffRelations s) /\
  (forall cols,
     diff_columns s1 = Ok cols ->
     buildDiffRelationalColumns s1 = Throw x ->
     fst r = Throw x /\ _databaseEntity s' = Some d /\
     diffColumns s' = cols /\ diffRelations s' = diffRelations s).
Proof.
  intros He s1 r s'. subst s' r. rewrite set_databaseEntity_cases. fold s1.
  rewrite He. split.
  - intros ->. simpl. auto.
  - intros cols -> ->. simpl. auto.
Qed.

(** X7. Assigning the same value twice is assigning it once: the second
    assignment has the outcome of the first and leaves the subject the
    first one left. *)
Theorem set_databaseEntity_idempotent (s : Subject) (a : option ObjectLiteral) :
  assign (snd (assign s a)) a = assign s a.
Proof.
  rewrite (set_databaseEntity_cases s a). cbv zeta.
  destruct (_persistEntity s) as [e|] eqn:He.
  - destruct a as [d|].
    + set (s1 := with_databaseEntity s (Some d)).
      destruct (diff_columns s1) as [cols|x] eqn:Hc.
      * destruct (buildDiffRelationalColumns s1) as [rels|x] eqn:Hr; simpl.
        -- rewrite set_databaseEntity_cases. simpl. rewrite He.
           rewrite (buildDiffColumns_frame utils JSON_stringify getEntityValue
                      s1 (with_databaseEntity
                            (with_diffRelations (with_diffColumns s1 cols) rels)
                            (Some d))) by reflexivity.
           rewrite Hc.
           rewrite (buildDiffRelationalColumns_frame
                      s1 (with_databaseEntity
                            (with_diffRelations (with_diffColumns s1 cols) rels)
                            (Some d))) by reflexivity.
           rewrite Hr. reflexivity.
        -- rewrite set_databaseEntity_cases. simpl. rewrite He.
           rewrite (buildDiffColumns_frame utils JSON_stringify getEntityValue
                      s1 (with_databaseEntity (with_diffColumns s1 cols) (Some d)))
             by reflexivity.
           rewrite Hc.
           rewrite (buildDiffRelationalColumns_frame
                      s1 (with_databaseEntity (with_diffColumns s1 cols) (Some d)))
             by reflexivity.
           rewrite Hr. reflexivity.
      * simpl. rewrite set_databaseEntity_cases. simpl. rewrite He.
        rewrite (buildDiffColumns_frame utils JSON_stringify getEntityValue
                   s1 (with_databaseEntity s1 (Some d))) by reflexivity.
        rewrite Hc. reflexivity.
    + simpl. rewrite set_databaseEntity_cases. simpl. rewrite He. reflexivity.
  - simpl. rewrite set_databaseEntity_cases. simpl. rewrite He. reflexivity.
Qed.

(** X8. The last snapshot wins: when a snapshot is assigned after any
    earlier assignment and the setter returns, the subject is the one that
    assigning this snapshot alone leaves; nothing of the earlier
    assignment remains. *)
Theorem set_databaseEntity_overwrites (s : Subject) (a : option ObjectLiteral)
        (d : ObjectLiteral) :
  fst (assign (snd (assign s a)) (Some d)) = Ok tt ->
  assign (snd (assign s a)) (Some d) = assign s (Some d).
Proof.
  destruct (set_databaseEntity_fields s a) as (_ & Hp & Hm & _).
  set (s0 := snd (assign s a)) in *.
  rewrite (set_databaseEntity_cases s0 (Some d)),
          (set_databaseEntity_cases s (Some d)). cbv zeta.
  rewrite Hp.
  destruct (_persistEntity s) as [e|] eqn:He.
  - rewrite (buildDiffColumns_frame utils JSON_stringify getEntityValue
               (with_databaseEntity s (Some d)) (with_databaseEntity s0 (Some d)))
      by (simpl; congruence).
    rewrite (buildDiffRelationalColumns_frame
               (with_databaseEntity s (Some d)) (with_databaseEntity s0 (Some d)))
      by (simpl; congruence).
    destruct (diff_columns (with_databaseEntity s (Some d))) as [cols|x];
      [|discriminate].
    destruct (buildDiffRelationalColumns (with_databaseEntity s (Some d)))
      as [rels|x]; [|discriminate].
    intros _. f_equal.
    subst s0. rewrite set_databaseEntity_cases. cbv zeta. rewrite He.
    destruct a as [d0|]; [|reflexivity].
    destruct (diff_columns _); [|reflexivity].
    destruct (buildDiffRelationalColumns _); reflexivity.
  - intros _. f_equal.
    subst s0. rewrite set_databaseEntity_cases. cbv zeta. rewrite He.
    reflexivity.
Qed.

(** X9. Once a snapshot is assigned, whatever the setter's outcome,
    [mustBeInserted] is false, so [validate] cannot raise either of the two
    conflicts with an insert: it returns, or it throws the update-and-remove
    error, the latter exactly when [mustBeUpdated] and [mustBeRemoved] both
    hold. *)
Theorem validate_after_snapshot (s : Subject) (d : ObjectLiteral) :
  let s' := snd (assign s (Some d)) in
  mustBeInserted s' = false /\
  (validate s' = Ok tt \/
   validate s' = Throw (Error (update_remove_message (md_name (metadata s))))) /\
  (validate s' = Ok tt <-> mustBeUpdated s' && mustBeRemoved s = false).
Proof.
  cbv zeta.
  destruct (set_databaseEntity_fields s (Some d)) as (Hdb & _ & Hm & Hr).
  set (s' := snd (assign s (Some d))) in *.
  assert (Hi : mustBeInserted s' = false)
    by (unfold mustBeInserted, hasDatabaseEntity; rewrite Hdb; apply andb_false_r).
  split; [exact Hi|].
  unfold validate. rewrite Hi, Hm, Hr. simpl.
  destruct (mustBeUpdated s' && mustBeRemoved s); simpl.
  - split; [now right|]. split; discriminate.
  - split; [now left|]. split; reflexivity.
Qed.

(** X10. The two filters read the desired entity, the database entity and
    the metadata, and nothing else: subjects that agree on these three get
    the same results, whatever their flags, stored lists, pending updates
    and generated ids are. *)
Theorem diff_filters_read_entities_only (s s' : Subject) :
  _persistEntity s' = _persistEntity s ->
  _databaseEntity s' = _databaseEntity s ->
  metadata s' = metadata s ->
  diff_columns s' = diff_columns s /\
  buildDiffRelationalColumns s' = buildDiffRelationalColumns s.
Proof.
  intros Hp Hd Hm. split.
  - now apply buildDiffColumns_frame.
  - now apply buildDiffRelationalColumns_frame.
Qed.

End ExtraSetterFacts.

(** *** More on the two diffs *)

Section ExtraDiffFacts.

Variable utils : DataTransformationUtils.
Variable JSON_stringify : value -> res value.
Variable getEntityValue : ColumnMetadata -> ObjectLiteral -> res value.

Local Abbreviation values_of :=
  (normalized_values utils JSON_stringify getEntityValue).
Local Abbreviation column_verdict :=
  (column_differs utils JSON_stringify getEntityValue).
Local Abbreviation diff_columns :=
  (buildDiffColumns utils JSON_stringify getEntityValue).

(** X11. A JSON column is compared through [JSON.stringify]: when both raw
    values are present and serialize to the same text, the column is not in
    the column diff, even for two distinct objects. A database value that
    is [null] or [undefined] is not serialized but compared as it is with
    the text of the entity value, so such a column, when it is diffable and
    no relation is named after it, is in the column diff. A delimited-array
    column whose two raw values convert to the same text is not in the
    column diff either. *)
Theorem serialized_columns (s : Subject) (e d : ObjectLiteral)
        (cols : list ColumnMetadata) (c : ColumnMetadata) (ev dv : value)
        (text : string) :
  _persistEntity s = Some e ->
  _databaseEntity s = Some d ->
  diff_columns s = Ok cols ->
  getEntityValue c e = Ok ev ->
  getEntityValue c d = Ok dv ->
  is_nullish ev = false ->
  (col_type c = JSON -> is_nullish dv = false ->
   JSON_stringify ev = Ok (VString text) ->
   JSON_stringify dv = Ok (VString text) ->
   ~ In c cols) /\
  (col_type c = JSON -> is_nullish dv = true ->
   JSON_stringify ev = Ok (VString text) ->
   In c (allColumns (metadata s)) -> diffable e c = true ->
   hasRelationWithDbName (metadata s) (col_propertyName c) = false ->
   In c cols) /\
  (col_type c = SIMPLE_ARRAY ->
   simpleArrayToString utils ev = Ok (VString text) ->
   simpleArrayToString utils dv = Ok (VString text) ->
   ~ In c cols).
Proof.
  intros He Hd Hcols Hev Hdv Hnn.
  pose proof (normalized_values_eq utils JSON_stringify getEntityValue
                s e d c ev dv He Hd Hev Hdv) as Hv.
  apply is_nullish_false in Hnn as [Hu Hn].
  assert (Hguard : negb (is_null ev) && negb (is_undefined ev) = true)
    by (now rewrite Hu, Hn).
  unfold normalize in Hv. rewrite Hguard in Hv.
  assert (Hsame : values_of s c = Ok (VString text, VString text) -> ~ In c cols).
  { intros Hv' Hc.
    apply (buildDiffColumns_member utils JSON_stringify getEntityValue
             s e d cols c He Hd Hcols) in Hc
      as (_ & _ & _ & (ev' & dv' & Hv'' & Hne) & _).
    rewrite Hv' in Hv''. injection Hv'' as <- <-.
    simpl in Hne. now rewrite String.eqb_refl in Hne. }
  split; [|split].
  - intros Ht Hdn Hje Hjd. apply Hsame. rewrite Hv, Ht, Hje. simpl.
    apply is_nullish_false in Hdn as [Hdu Hdn]. rewrite Hdu, Hdn. simpl.
    now rewrite Hjd.
  - intros Ht Hdn Hje Hin Hdf Hrel.
    apply (buildDiffColumns_member utils JSON_stringify getEntityValue
             s e d cols c He Hd Hcols).
    unfold diffable in Hdf. apply andb_true_iff in Hdf as [Hres Hsp].
    apply negb_true_iff in Hsp.
    split; [exact Hin|]. split; [exact Hres|]. split; [exact Hsp|]. split.
    + exists (VString text), dv. rewrite Hv, Ht, Hje. simpl.
      unfold is_nullish in Hdn.
      replace (negb (is_null dv) && negb (is_undefined dv)) with false
        by (destruct dv; simpl in *; congruence).
      split; [reflexivity|]. destruct dv; simpl in *; congruence.
    + intros _ r Hr. unfold hasRelationWithDbName in Hrel.
      rewrite Hr in Hrel. discriminate Hrel.
  - intros Ht Hse Hsd. apply Hsame. now rewrite Hv, Ht, Hse, Hsd.
Qed.

(** X12. Setting a plain column to [null] is diffed without conversion,
    whatever the type of the column and whatever the conversion helpers
    do: with no relation named after the column and the column not
    system-managed, it is in the column diff exactly when the value of the
    snapshot is not [null]. *)
Theorem null_column_value (s : Subject) (e d : ObjectLiteral)
        (cols : list ColumnMetadata) (c : ColumnMetadata) (dv : value) :
  _persistEntity s = Some e ->
  _databaseEntity s = Some d ->
  diff_columns s = Ok cols ->
  In c (allColumns (metadata s)) ->
  isInEmbedded c = false ->
  get e (col_propertyName c) = VNull ->
  getEntityValue c e = Ok VNull ->
  getEntityValue c d = Ok dv ->
  is_special c = false ->
  hasRelationWithDbName (metadata s) (col_propertyName c) = false ->
  values_of s c = Ok (VNull, dv) /\
  (In c cols <-> is_null dv = false).
Proof.
  intros He Hd Hcols Hin Hemb Hget Hev Hdv Hsp Hrel.
  assert (Hv : values_of s c = Ok (VNull, dv))
    by (rewrite (normalized_values_eq utils JSON_stringify getEntityValue
                   s e d c VNull dv He Hd Hev Hdv);
        reflexivity).
  split; [exact Hv|].
  rewrite (buildDiffColumns_member utils JSON_stringify getEntityValue
             s e d cols c He Hd Hcols).
  assert (Hres : resolvable e c = true)
    by (unfold resolvable; now rewrite Hemb, Hget).
  split.
  - intros (_ & _ & _ & (ev' & dv' & Hv' & Hne) & _).
    rewrite Hv in Hv'. injection Hv' as <- <-.
    now rewrite strict_equals_null in Hne.
  - intros Hdn. repeat split; auto.
    + exists VNull, dv. now rewrite strict_equals_null.
    + intros _ r Hr. unfold hasRelationWithDbName in Hrel.
      rewrite Hr in Hrel. discriminate Hrel.
Qed.

(** X13. A number column that holds NaN on both sides is reported as
    changed: [===] does not hold between NaN and itself, so the column diff
    of a subject with such a column is not empty however equal the two
    entities are. *)
Theorem nan_column_reported (s : Subject) (e d : ObjectLiteral)
        (cols : list ColumnMetadata) (c : ColumnMetadata) :
  _persistEntity s = Some e ->
  _databaseEntity s = Some d ->
  diff_columns s = Ok cols ->
  In c (allColumns (metadata s)) ->
  values_of s c = Ok (VNumber nan, VNumber nan) ->
  diffable e c = true ->
  hasRelationWithDbName (metadata s) (col_propertyName c) = false ->
  In c cols /\ cols <> [].
Proof.
  intros He Hd Hcols Hin Hv Hdf Hrel.
  assert (Hc : In c cols).
  { apply (buildDiffColumns_member utils JSON_stringify getEntityValue
             s e d cols c He Hd Hcols).
    unfold diffable in Hdf. apply andb_true_iff in Hdf as [Hres Hsp].
    apply negb_true_iff in Hsp. repeat split; auto.
    - exists (VNumber nan), (VNumber nan). split; [exact Hv|reflexivity].
    - intros _ r Hr. unfold hasRelationWithDbName in Hrel.
      rewrite Hr in Hrel. discriminate Hrel. }
  split; [exact Hc|]. intros ->. destruct Hc.
Qed.

(** The column callback throws only through a helper or on the [null]
    container of an embedded column. *)
Lemma column_differs_throw (s : Subject) (e : ObjectLiteral) (c : ColumnMetadata)
      (nv : value * value) (x : exn) :
  _persistEntity s = Some e ->
  values_of s c = Ok nv ->
  column_verdict s c = Throw x ->
  x = TypeError /\ isInEmbedded c = true /\ get e (embeddedProperty c) = VNull.
Proof.
  intros He Hv Hx.
  destruct (embedded_readable e c) eqn:Hr.
  - destruct (column_differs_total utils JSON_stringify getEntityValue
                s e c nv He Hv Hr) as [b Hb]. congruence.
  - unfold embedded_readable in Hr. apply orb_false_iff in Hr as [Hemb Hnull].
    apply negb_false_iff in Hemb, Hnull.
    assert (Hc : get e (embeddedProperty c) = VNull)
      by (destruct (get e (embeddedProperty c)); simpl in Hnull; congruence).
    revert Hx. unfold column_differs. rewrite Hv. unfold entity. rewrite He.
    simpl. rewrite Hemb. simpl. unfold embedded_undefined. rewrite Hemb, Hc.
    simpl. intros [= <-]. auto.
Qed.

Lemma column_differs_null_container (s : Subject) (e : ObjectLiteral)
      (c : ColumnMetadata) (nv : value * value) :
  _persistEntity s = Some e ->
  values_of s c = Ok nv ->
  isInEmbedded c = true ->
  get e (embeddedProperty c) = VNull ->
  column_verdict s c = Throw TypeError.
Proof.
  intros He Hv Hemb Hc. unfold column_differs. rewrite Hv. unfold entity.
  rewrite He. simpl. rewrite Hemb. simpl. unfold embedded_undefined.
  now rewrite Hemb, Hc.
Qed.

(** X14. With helpers that return, the column diff throws exactly when an
    embedded column has its container set to [null] on the desired entity,
    and what it throws is the [TypeError] of the read under [null]; the
    test of the container against [undefined] does not cover [null]. *)
Theorem null_container_throws (s : Subject) (e d : ObjectLiteral) :
  _persistEntity s = Some e ->
  _databaseEntity s = Some d ->
  column_helpers_return utils JSON_stringify getEntityValue s ->
  ((exists c, In c (allColumns (metadata s)) /\ isInEmbedded c = true /\
              get e (embeddedProperty c) = VNull) ->
   diff_columns s = Throw TypeError) /\
  (forall x,
     diff_columns s = Throw x ->
     x = TypeError /\
     exists c, In c (allColumns (metadata s)) /\ isInEmbedded c = true /\
               get e (embeddedProperty c) = VNull).
Proof.
  intros He Hd Hh. split.
  - intros (c & Hin & Hemb & Hc). apply filterM_throws.
    + intros a Ha. destruct (Hh a Ha) as [nv Hv].
      destruct (column_verdict s a) as [b|x] eqn:Hx; [eauto|].
      right. f_equal.
      now destruct (column_differs_throw s e a nv x He Hv Hx).
    + exists c. split; [exact Hin|]. destruct (Hh c Hin) as [nv Hv].
      now apply (column_differs_null_container s e c nv).
  - intros x Hx. apply filterM_throw in Hx as (c & Hin & Hc).
    destruct (Hh c Hin) as [nv Hv].
    destruct (column_differs_throw s e c nv x He Hv Hc) as (-> & Hemb & Hnull).
    split; [reflexivity|]. now exists c.
Qed.

End ExtraDiffFacts.

(** The relation diff on a relation whose property holds no object: the
    raw value is the identifier. *)
Lemma relation_raw_identifier (s : Subject) (e d : ObjectLiteral)
      (rels : list RelationMetadata) (r : RelationMetadata) :
  _persistEntity s = Some e ->
  _databaseEntity s = Some d ->
  buildDiffRelationalColumns s = Ok rels ->
  In r (allRelations (metadata s)) ->
  has_join_column r = true ->
  instanceof_Object (get e (rel_propertyName r)) = false ->
  (In r rels <->
   ids_differ (get e (rel_propertyName r)) (get d (rel_name r)) = true).
Proof.
  intros He Hd Hrels Hin Hj Hobj.
  assert (Hids : relation_ids s r
                 = Ok (get e (rel_propertyName r), get d (rel_name r))).
  { apply (relation_ids_inv s e d r _ _ He Hd). split; [|reflexivity].
    unfold updatedEntityRelationId. now rewrite Hobj. }
  rewrite (buildDiffRelationalColumns_In s rels r Hrels). split.
  - intros (_ & _ & u & dbId & Hids' & Hdf). rewrite Hids in Hids'.
    now injection Hids' as <- <-.
  - intros Hdf. split; [exact Hin|]. split; [exact Hj|]. eauto.
Qed.

Lemma relation_null_identifier (s : Subject) (e d : ObjectLiteral)
      (rels : list RelationMetadata) (r : RelationMetadata) :
  _persistEntity s = Some e ->
  _databaseEntity s = Some d ->
  buildDiffRelationalColumns s = Ok rels ->
  In r (allRelations (metadata s)) ->
  has_join_column r = true ->
  get e (rel_propertyName r) = VNull ->
  (In r rels <-> is_nullish (get d (rel_name r)) = false).
Proof.
  intros He Hd Hrels Hin Hj Hn.
  rewrite (relation_raw_identifier s e d rels r He Hd Hrels Hin Hj)
    by (now rewrite Hn).
  rewrite Hn. unfold ids_differ, is_nullish.
  destruct (get d (rel_name r)); simpl; split; congruence.
Qed.

(** X15. A relation whose property is left [undefined] on the desired
    entity is never in the relation diff. One whose property holds [null]
    or another value that is not an object has that value as identifier,
    with no call of the identifier helper: set to [null] it is in the
    relation diff exactly when the snapshot holds an identifier. *)
Theorem relation_without_object (s : Subject) (e d : ObjectLiteral)
        (rels : list RelationMetadata) (r : RelationMetadata) :
  _persistEntity s = Some e ->
  _databaseEntity s = Some d ->
  buildDiffRelationalColumns s = Ok rels ->
  In r (allRelations (metadata s)) ->
  has_join_column r = true ->
  (get e (rel_propertyName r) = VUndefined -> ~ In r rels) /\
  (get e (rel_propertyName r) = VNull ->
   (In r rels <-> is_nullish (get d (rel_name r)) = false)) /\
  (instanceof_Object (get e (rel_propertyName r)) = false ->
   (In r rels <->
    ids_differ (get e (rel_propertyName r)) (get d (rel_name r)) = true)).
Proof.
  intros He Hd Hrels Hin Hj.
  pose proof (relation_raw_identifier s e d rels r He Hd Hrels Hin Hj) as Hraw.
  split; [|split; [|exact Hraw]].
  - intros Hu. rewrite Hraw by (now rewrite Hu). now rewrite Hu.
  - now apply (relation_null_identifier s e d rels r).
Qed.

Section ExtraRelationalFacts.

Variable utils : DataTransformationUtils.
Variable JSON_stringify : value -> res value.
Variable getEntityValue : ColumnMetadata -> ObjectLiteral -> res value.

Local Abbreviation values_of :=
  (normalized_values utils JSON_stringify getEntityValue).
Local Abbreviation diff_columns :=
  (buildDiffColumns utils JSON_stringify getEntityValue).

(** X16. With the property of the relation set to [null], a foreign-key
    column and its relation are reported together: a plain column named
    after the relation, diffable and with compared values that differ, is
    in the column diff, and the relation is in the relation diff as soon as
    the snapshot holds an identifier for it. *)
Theorem null_relation_reported_twice (s : Subject) (e d : ObjectLiteral)
        (cols : list ColumnMetadata) (rels : list RelationMetadata)
        (c : ColumnMetadata) (r : RelationMetadata) (ev dv : value) :
  _persistEntity s = Some e ->
  _databaseEntity s = Some d ->
  diff_columns s = Ok cols ->
  buildDiffRelationalColumns s = Ok rels ->
  In c (allColumns (metadata s)) ->
  isInEmbedded c = false ->
  findRelationWithDbName (metadata s) (col_propertyName c) = Some r ->
  get e (rel_propertyName r) = VNull ->
  values_of s c = Ok (ev, dv) ->
  diffable e c = true ->
  strict_equals ev dv = false ->
  is_nullish (get d (rel_name r)) = false ->
  In c cols /\ In r rels.
Proof.
  intros He Hd Hcols Hrels Hin Hemb Hr Hnull Hv Hdf Hne Hdb.
  destruct (findRelationWithDbName_sound _ _ _ Hr) as (Hinr & Hj & _).
  split.
  - apply (buildDiffColumns_member utils JSON_stringify getEntityValue
             s e d cols c He Hd Hcols).
    unfold diffable in Hdf. apply andb_true_iff in Hdf as [Hres Hsp].
    apply negb_true_iff in Hsp. repeat split; auto.
    + now exists ev, dv.
    + intros _ r' Hr'. rewrite Hr in Hr'. injection Hr' as <-.
      now rewrite Hnull.
  - now apply (relation_null_identifier s e d rels r He Hd Hrels Hinr Hj Hnull).
Qed.

End ExtraRelationalFacts.

(** *** The diffs and the flags together *)

Lemma strict_equals_string (text : string) (v : value) :
  strict_equals (VString text) v = true <-> v = VString text.
Proof.
  destruct v; simpl; split; try discriminate.
  - intros H. apply String.eqb_eq in H. now subst.
  - intros [= ->]. apply String.eqb_refl.
Qed.

Lemma length_pos_nonempty {A : Type} (l : list A) :
  (0 < List.length l)%nat <-> l <> [].
Proof.
  destruct l; simpl; split; intros H; try lia; congruence.
Qed.

Section ExtraComposedFacts.

Variable utils : DataTransformationUtils.
Variable JSON_stringify : value -> res value.
Variable getEntityValue : ColumnMetadata -> ObjectLiteral -> res value.

Local Abbreviation values_of :=
  (normalized_values utils JSON_stringify getEntityValue).
Local Abbreviation column_verdict :=
  (column_differs utils JSON_stringify getEntityValue).
Local Abbreviation diff_columns :=
  (buildDiffColumns utils JSON_stringify getEntityValue).
Local Abbreviation assign :=
  (set_databaseEntity utils JSON_stringify getEntityValue).

(** X17. After an assignment of a snapshot that returns, [mustBeUpdated]
    holds exactly when [canBeUpdated] holds and one of the two filters
    reports something on the subject holding the snapshot. *)
Theorem mustBeUpdated_after_snapshot (s : Subject) (e d : ObjectLiteral)
        (cols : list ColumnMetadata) (rels : list RelationMetadata) :
  _persistEntity s = Some e ->
  diff_columns (with_databaseEntity s (Some d)) = Ok cols ->
  buildDiffRelationalColumns (with_databaseEntity s (Some d)) = Ok rels ->
  fst (assign s (Some d)) = Ok tt /\
  (mustBeUpdated (snd (assign s (Some d))) = true <->
   canBeUpdated s = true /\ (cols <> [] \/ rels <> [])).
Proof.
  intros He Hc Hr. rewrite set_databaseEntity_cases. cbv zeta.
  rewrite He, Hc, Hr. simpl. split; [reflexivity|].
  unfold mustBeUpdated. simpl.
  now rewrite andb_true_iff, orb_true_iff, !Nat.ltb_lt, !length_pos_nonempty.
Qed.

(** X18. A date or a time column is compared with the snapshot value as
    stored: with an entity value that converts to a text, a diffable column
    with no relation named after it is in the column diff exactly when the
    snapshot does not hold that very text, a date object on the snapshot
    side included. *)
Theorem date_column_compared_as_stored (s : Subject) (e d : ObjectLiteral)
        (cols : list ColumnMetadata) (c : ColumnMetadata) (ev dv : value)
        (text : string) :
  _persistEntity s = Some e ->
  _databaseEntity s = Some d ->
  diff_columns s = Ok cols ->
  In c (allColumns (metadata s)) ->
  getEntityValue c e = Ok ev ->
  getEntityValue c d = Ok dv ->
  is_nullish ev = false ->
  diffable e c = true ->
  hasRelationWithDbName (metadata s) (col_propertyName c) = false ->
  (col_type c = DATE -> mixedDateToDateString utils ev = Ok (VString text) ->
   (In c cols <-> dv <> VString text)) /\
  (col_type c = TIME -> mixedDateToTimeString utils ev = Ok (VString text) ->
   (In c cols <-> dv <> VString text)).
Proof.
  intros He Hd Hcols Hin Hev Hdv Hnn Hdf Hrel.
  pose proof (normalized_values_eq utils JSON_stringify getEntityValue
                s e d c ev dv He Hd Hev Hdv) as Hv.
  apply is_nullish_false in Hnn as [Hu Hn].
  unfold normalize in Hv. rewrite Hu, Hn in Hv. simpl in Hv.
  unfold diffable in Hdf. apply andb_true_iff in Hdf as [Hres Hsp].
  apply negb_true_iff in Hsp.
  assert (Hgen : values_of s c = Ok (VString text, dv) ->
                 (In c cols <-> dv <> VString text)).
  { intros Hv'.
    rewrite (buildDiffColumns_member utils JSON_stringify getEntityValue
               s e d cols c He Hd Hcols). split.
    - intros (_ & _ & _ & (ev' & dv' & Hv'' & Hne) & _) Heq.
      rewrite Hv' in Hv''. injection Hv'' as <- <-.
      apply strict_equals_string in Heq. congruence.
    - intros Hne. repeat split; auto.
      + exists (VString text), dv. split; [exact Hv'|].
        destruct (strict_equals (VString text) dv) eqn:Heq; [|reflexivity].
        apply strict_equals_string in Heq. contradiction.
      + intros _ r Hr. unfold hasRelationWithDbName in Hrel.
        rewrite Hr in Hrel. discriminate Hrel. }
  split; intros Ht Hconv; apply Hgen; now rewrite Hv, Ht, Hconv.
Qed.

(** X19. The conversions run before the tests that skip a column: a column
    diff that returns has had the helpers return on every column of the
    metadata, the system-managed and the unresolvable ones included, and a
    helper that throws on any column makes the column diff throw. *)
Theorem buildDiffColumns_converts_every_column (s : Subject) :
  (forall cols,
     diff_columns s = Ok cols ->
     forall c, In c (allColumns (metadata s)) ->
               exists ev dv, values_of s c = Ok (ev, dv)) /\
  (forall c x,
     In c (allColumns (metadata s)) ->
     values_of s c = Throw x ->
     exists y, diff_columns s = Throw y).
Proof.
  assert (H : forall cols,
             diff_columns s = Ok cols ->
             forall c, In c (allColumns (metadata s)) ->
                       exists ev dv, values_of s c = Ok (ev, dv)).
  { intros cols Hcols c Hin.
    destruct (filterM_each _ _ _ Hcols c Hin) as [b Hb].
    destruct (column_differs_values utils JSON_stringify getEntityValue s c b Hb)
      as (_ & _ & ev & dv & _ & _ & Hv).
    now exists ev, dv. }
  split; [exact H|].
  intros c x Hin Hx.
  destruct (diff_columns s) as [cols|y] eqn:Hd; [|now exists y].
  destruct (H cols eq_refl c Hin) as (ev & dv & Hv). congruence.
Qed.

End ExtraComposedFacts.

(** X20. A relation whose property holds an object from which the
    identifier helper extracts [undefined], an object without identifier
    yet, is never in the relation diff, whatever the snapshot holds. *)
Theorem relation_object_without_id (s : Subject) (e d : ObjectLiteral)
        (rels : list RelationMetadata) (r : RelationMetadata) :
  _persistEntity s = Some e ->
  _databaseEntity s = Some d ->
  buildDiffRelationalColumns s = Ok rels ->
  instanceof_Object (get e (rel_propertyName r)) = true ->
  getEntityIdMixedMap r (get e (rel_propertyName r)) = Ok VUndefined ->
  ~ In r rels.
Proof.
  intros He Hd Hrels Hobj Hid Hin.
  apply (buildDiffRelationalColumns_In s rels r Hrels) in Hin
    as (_ & _ & u & dbId & Hids & Hdf).
  apply (relation_ids_inv s e d r u dbId He Hd) in Hids as [Hu _].
  unfold updatedEntityRelationId in Hu. rewrite Hobj, Hid in Hu.
  injection Hu as <-. discriminate Hdf.
Qed.

(** *** The further properties on the samples *)

Example profile_subject_columns :
  profile_columns profile_subject = Ok [birthdayColumn; scoreColumn].
Proof. vm_compute. reflexivity. Qed.

Example detachedPost_diffs :
  sample_columns (post_subject detachedPost storedBareIdPost) = Ok [authorIdColumn] /\
  buildDiffRelationalColumns (post_subject detachedPost storedBareIdPost)
  = Ok [authorRelation].
Proof. split; vm_compute; reflexivity. Qed.

Lemma buildDiffColumns_iff_witness :
  _persistEntity (post_subject updatedPost storedPost) = Some updatedPost /\
  _databaseEntity (post_subject updatedPost storedPost) = Some storedPost /\
  sample_columns (post_subject updatedPost storedPost) = Ok [favoritesColumn] /\
  resolvable updatedPost favoritesColumn = true /\
  ~ In likesColumn [favoritesColumn].
Proof.
  assert (Hcols : sample_columns (post_subject updatedPost storedPost)
                  = Ok [favoritesColumn]) by (vm_compute; reflexivity).
  split; [reflexivity|]. split; [reflexivity|]. split; [exact Hcols|]. split.
  - destruct (proj1 (buildDiffColumns_iff
                       (utils_model 0) JSON_stringify_model getEntityValue_model
                       (post_subject updatedPost storedPost) updatedPost storedPost
                       [favoritesColumn] favoritesColumn eq_refl eq_refl Hcols)
                    (or_introl eq_refl)) as (_ & Hres & _).
    exact Hres.
  - intros Hin.
    destruct (proj1 (buildDiffColumns_iff
                       (utils_model 0) JSON_stringify_model getEntityValue_model
                       (post_subject updatedPost storedPost) updatedPost storedPost
                       [favoritesColumn] likesColumn eq_refl eq_refl Hcols) Hin)
      as (_ & _ & _ & (ev & dv & Hv & Hne) & _).
    vm_compute in Hv. injection Hv as <- <-. discriminate Hne.
Defined.

Lemma set_databaseEntity_throw_witness :
  _persistEntity nullCounters_subject = Some nullCountersPost /\
  let r := sample_assign nullCounters_subject (Some storedPost) in
  fst r = Throw TypeError /\ _databaseEntity (snd r) = Some storedPost /\
  diffColumns (snd r) = [titleColumn] /\ diffRelations (snd r) = [authorRelation].
Proof.
  split; [reflexivity|].
  apply (proj1 (set_databaseEntity_throw
                  (utils_model 0) JSON_stringify_model getEntityValue_model
                  nullCounters_subject nullCountersPost storedPost TypeError
                  eq_refl)).
  vm_compute. reflexivity.
Defined.

Lemma set_databaseEntity_overwrites_witness :
  fst (sample_assign
         (snd (sample_assign (new_Subject postMetadata (Some updatedPost) None 0)
                             (Some storedBareIdPost)))
         (Some storedPost)) = Ok tt /\
  sample_assign
    (snd (sample_assign (new_Subject postMetadata (Some updatedPost) None 0)
                        (Some storedBareIdPost)))
    (Some storedPost)
  = sample_assign (new_Subject postMetadata (Some updatedPost) None 0)
                  (Some storedPost).
Proof.
  assert (H : fst (sample_assign
                     (snd (sample_assign
                             (new_Subject postMetadata (Some updatedPost) None 0)
                             (Some storedBareIdPost)))
                     (Some storedPost)) = Ok tt) by (vm_compute; reflexivity).
  split; [exact H|].
  exact (set_databaseEntity_overwrites
           (utils_model 0) JSON_stringify_model getEntityValue_model
           (new_Subject postMetadata (Some updatedPost) None 0)
           (Some storedBareIdPost) storedPost H).
Defined.

Lemma diff_filters_read_entities_only_witness :
  _persistEntity flagged_subject = _persistEntity (post_subject updatedPost storedPost) /\
  _databaseEntity flagged_subject
  = _databaseEntity (post_subject updatedPost storedPost) /\
  metadata flagged_subject = metadata (post_subject updatedPost storedPost) /\
  sample_columns flagged_subject
  = sample_columns (post_subject updatedPost storedPost) /\
  buildDiffRelationalColumns flagged_subject
  = buildDiffRelationalColumns (post_subject updatedPost storedPost).
Proof.
  split; [reflexivity|]. split; [reflexivity|]. split; [reflexivity|].
  exact (diff_filters_read_entities_only
           (utils_model 0) JSON_stringify_model getEntityValue_model
           (post_subject updatedPost storedPost) flagged_subject
           eq_refl eq_refl eq_refl).
Defined.

Lemma serialized_columns_witness :
  _persistEntity profile_subject = Some editedProfile /\
  _databaseEntity profile_subject = Some storedProfile /\
  profile_columns profile_subject = Ok [birthdayColumn; scoreColumn] /\
  getEntityValue_model settingsColumn editedProfile
  = Ok (get editedProfile "settings") /\
  getEntityValue_model settingsColumn storedProfile
  = Ok (get storedProfile "settings") /\
  is_nullish (get editedProfile "settings") = false /\
  strict_equals (get editedProfile "settings") (get storedProfile "settings")
  = false /\
  ~ In settingsColumn [birthdayColumn; scoreColumn].
Proof.
  assert (Hcols : profile_columns profile_subject = Ok [birthdayColumn; scoreColumn])
    by (vm_compute; reflexivity).
  repeat (split; [first [exact Hcols|reflexivity]|]).
  apply (proj1 (serialized_columns
                  (utils_model 0) JSON_stringify_sample getEntityValue_model
                  profile_subject editedProfile storedProfile
                  [birthdayColumn; scoreColumn] settingsColumn
                  (get editedProfile "settings") (get storedProfile "settings")
                  settings_text eq_refl eq_refl Hcols eq_refl eq_refl eq_refl));
    reflexivity.
Defined.

Lemma null_column_value_witness :
  _persistEntity profile_subject = Some editedProfile /\
  _databaseEntity profile_subject = Some storedProfile /\
  profile_columns profile_subject = Ok [birthdayColumn; scoreColumn] /\
  In birthdayColumn (allColumns profileMetadata) /\
  isInEmbedded birthdayColumn = false /\
  get editedProfile (col_propertyName birthdayColumn) = VNull /\
  getEntityValue_model birthdayColumn editedProfile = Ok VNull /\
  getEntityValue_model birthdayColumn storedProfile = Ok (VString "1990-01-01") /\
  is_special birthdayColumn = false /\
  hasRelationWithDbName profileMetadata (col_propertyName birthdayColumn) = false /\
  (In birthdayColumn [birthdayColumn; scoreColumn] <->
   is_null (VString "1990-01-01") = false).
Proof.
  assert (Hcols : profile_columns profile_subject = Ok [birthdayColumn; scoreColumn])
    by (vm_compute; reflexivity).
  assert (Hin : In birthdayColumn (allColumns profileMetadata)) by (simpl; tauto).
  repeat (split; [first [exact Hcols|exact Hin|reflexivity]|]).
  apply (proj2 (null_column_value
                  (utils_model 0) JSON_stringify_sample getEntityValue_model
                  profile_subject editedProfile storedProfile
                  [birthdayColumn; scoreColumn] birthdayColumn
                  (VString "1990-01-01") eq_refl eq_refl Hcols Hin eq_refl eq_refl
                  eq_refl eq_refl eq_refl eq_refl)).
Defined.

Lemma nan_column_reported_witness :
  _persistEntity profile_subject = Some editedProfile /\
  _databaseEntity profile_subject = Some storedProfile /\
  profile_columns profile_subject = Ok [birthdayColumn; scoreColumn] /\
  In scoreColumn (allColumns profileMetadata) /\
  normalized_values (utils_model 0) JSON_stringify_sample getEntityValue_model
                    profile_subject scoreColumn
  = Ok (VNumber nan, VNumber nan) /\
  diffable editedProfile scoreColumn = true /\
  hasRelationWithDbName profileMetadata (col_propertyName scoreColumn) = false /\
  In scoreColumn [birthdayColumn; scoreColumn].
Proof.
  assert (Hcols : profile_columns profile_subject = Ok [birthdayColumn; scoreColumn])
    by (vm_compute; reflexivity).
  assert (Hin : In scoreColumn (allColumns profileMetadata)) by (simpl; tauto).
  repeat (split; [first [exact Hcols|exact Hin|reflexivity]|]).
  exact (proj1 (nan_column_reported
                  (utils_model 0) JSON_stringify_sample getEntityValue_model
                  profile_subject editedProfile storedProfile
                  [birthdayColumn; scoreColumn] scoreColumn
                  eq_refl eq_refl Hcols Hin eq_refl eq_refl eq_refl)).
Defined.

Lemma null_container_throws_witness :
  _persistEntity (post_subject nullCountersPost storedPost) = Some nullCountersPost /\
  _databaseEntity (post_subject nullCountersPost storedPost) = Some storedPost /\
  column_helpers_return (utils_model 0) JSON_stringify_model getEntityValue_model
                        (post_subject nullCountersPost storedPost) /\
  sample_columns (post_subject nullCountersPost storedPost) = Throw TypeError.
Proof.
  assert (Hh : column_helpers_return
                 (utils_model 0) JSON_stringify_model getEntityValue_model
                 (post_subject nullCountersPost storedPost)).
  { intros c Hin. each_member Hin ltac:(eexists; reflexivity). }
  split; [reflexivity|]. split; [reflexivity|]. split; [exact Hh|].
  apply (proj1 (null_container_throws
                  (utils_model 0) JSON_stringify_model getEntityValue_model
                  (post_subject nullCountersPost storedPost)
                  nullCountersPost storedPost eq_refl eq_refl Hh)).
  exists commentsColumn. split; [simpl; tauto|]. split; reflexivity.
Defined.

Lemma relation_without_object_witness :
  _persistEntity (post_subject detachedPost storedBareIdPost) = Some detachedPost /\
  _databaseEntity (post_subject detachedPost storedBareIdPost)
  = Some storedBareIdPost /\
  buildDiffRelationalColumns (post_subject detachedPost storedBareIdPost)
  = Ok [authorRelation] /\
  In authorRelation (allRelations postMetadata) /\
  has_join_column authorRelation = true /\
  (In authorRelation [authorRelation] <->
   is_nullish (get storedBareIdPost (rel_name authorRelation)) = false) /\
  ~ In categoryRelation [authorRelation].
Proof.
  assert (Hrels : buildDiffRelationalColumns
                    (post_subject detachedPost storedBareIdPost)
                  = Ok [authorRelation]) by (vm_compute; reflexivity).
  assert (Hin : In authorRelation (allRelations postMetadata)) by (simpl; tauto).
  assert (Hin' : In categoryRelation (allRelations postMetadata)) by (simpl; tauto).
  repeat (split; [first [exact Hrels|exact Hin|reflexivity]|]).
  split.
  - exact (proj1 (proj2 (relation_without_object
                           (post_subject detachedPost storedBareIdPost)
                           detachedPost storedBareIdPost [authorRelation]
                           authorRelation eq_refl eq_refl Hrels Hin eq_refl))
                 eq_refl).
  - exact (proj1 (relation_without_object
                    (post_subject detachedPost storedBareIdPost)
                    detachedPost storedBareIdPost [authorRelation]
                    categoryRelation eq_refl eq_refl Hrels Hin' eq_refl)
                 eq_refl).
Defined.

Lemma null_relation_reported_twice_witness :
  _persistEntity (post_subject detachedPost storedBareIdPost) = Some detachedPost /\
  _databaseEntity (post_subject detachedPost storedBareIdPost)
  = Some storedBareIdPost /\
  sample_columns (post_subject detachedPost storedBareIdPost) = Ok [authorIdColumn] /\
  buildDiffRelationalColumns (post_subject detachedPost storedBareIdPost)
  = Ok [authorRelation] /\
  In authorIdColumn (allColumns postMetadata) /\
  isInEmbedded authorIdColumn = false /\
  findRelationWithDbName postMetadata (col_propertyName authorIdColumn)
  = Some authorRelation /\
  get detachedPost (rel_propertyName authorRelation) = VNull /\
  sample_values (post_subject detachedPost storedBareIdPost) authorIdColumn
  = Ok (VNull, VNumber 6) /\
  diffable detachedPost authorIdColumn = true /\
  strict_equals VNull (VNumber 6) = false /\
  is_nullish (get storedBareIdPost (rel_name authorRelation)) = false /\
  In authorIdColumn [authorIdColumn] /\ In authorRelation [authorRelation].
Proof.
  assert (Hcols : sample_columns (post_subject detachedPost storedBareIdPost)
                  = Ok [authorIdColumn]) by (vm_compute; reflexivity).
  assert (Hrels : buildDiffRelationalColumns
                    (post_subject detachedPost storedBareIdPost)
                  = Ok [authorRelation]) by (vm_compute; reflexivity).
  assert (Hin : In authorIdColumn (allColumns postMetadata)) by (simpl; tauto).
  repeat (split; [first [exact Hcols|exact Hrels|exact Hin|reflexivity]|]).
  exact (null_relation_reported_twice
           (utils_model 0) JSON_stringify_model getEntityValue_model
           (post_subject detachedPost storedBareIdPost)
           detachedPost storedBareIdPost [authorIdColumn] [authorRelation]
           authorIdColumn authorRelation VNull (VNumber 6)
           eq_refl eq_refl Hcols Hrels Hin eq_refl eq_refl eq_refl eq_refl
           eq_refl eq_refl eq_refl).
Defined.

Lemma mustBeUpdated_after_snapshot_witness :
  _persistEntity removed_subject = Some updatedPost /\
  sample_columns (with_databaseEntity removed_subject (Some storedPost))
  = Ok [favoritesColumn] /\
  buildDiffRelationalColumns (with_databaseEntity removed_subject (Some storedPost))
  = Ok [] /\
  mustBeUpdated (snd (sample_assign removed_subject (Some storedPost))) = true.
Proof.
  assert (Hc : sample_columns (with_databaseEntity removed_subject (Some storedPost))
               = Ok [favoritesColumn]) by (vm_compute; reflexivity).
  assert (Hr : buildDiffRelationalColumns
                 (with_databaseEntity removed_subject (Some storedPost))
               = Ok []) by (vm_compute; reflexivity).
  split; [reflexivity|]. split; [exact Hc|]. split; [exact Hr|].
  apply (proj2 (mustBeUpdated_after_snapshot
                  (utils_model 0) JSON_stringify_model getEntityValue_model
                  removed_subject updatedPost storedPost [favoritesColumn] []
                  eq_refl Hc Hr)).
  split; [reflexivity|]. left. discriminate.
Defined.

Example dated_subject_columns :
  profile_columns dated_subject = Ok [birthdayColumn].
Proof. vm_compute. reflexivity. Qed.

Lemma date_column_compared_as_stored_witness :
  _persistEntity dated_subject = Some datedProfile /\
  _databaseEntity dated_subject = Some storedDatedProfile /\
  profile_columns dated_subject = Ok [birthdayColumn] /\
  In birthdayColumn (allColumns profileMetadata) /\
  getEntityValue_model birthdayColumn datedProfile = Ok (VDate 52 631152000000) /\
  getEntityValue_model birthdayColumn storedDatedProfile
  = Ok (VDate 42 631152000000) /\
  is_nullish (VDate 52 631152000000) = false /\
  diffable datedProfile birthdayColumn = true /\
  hasRelationWithDbName profileMetadata (col_propertyName birthdayColumn) = false /\
  mixedDateToDateString (utils_model 0) (VDate 52 631152000000)
  = Ok (VString "1990-01-01") /\
  In birthdayColumn [birthdayColumn].
Proof.
  assert (Hcols : profile_columns dated_subject = Ok [birthdayColumn])
    by (vm_compute; reflexivity).
  assert (Hin : In birthdayColumn (allColumns profileMetadata)) by (simpl; tauto).
  repeat (split; [first [exact Hcols|exact Hin|reflexivity]|]).
  apply (proj1 (date_column_compared_as_stored
                  (utils_model 0) JSON_stringify_sample getEntityValue_model
                  dated_subject datedProfile storedDatedProfile [birthdayColumn]
                  birthdayColumn (VDate 52 631152000000) (VDate 42 631152000000)
                  "1990-01-01" eq_refl eq_refl Hcols Hin eq_refl eq_refl eq_refl
                  eq_refl eq_refl) eq_refl eq_refl).
  discriminate.
Defined.

Lemma relation_object_without_id_witness :
  _persistEntity (post_subject unsavedAuthorPost storedPost) = Some unsavedAuthorPost /\
  _databaseEntity (post_subject unsavedAuthorPost storedPost) = Some storedPost /\
  buildDiffRelationalColumns (post_subject unsavedAuthorPost storedPost) = Ok [] /\
  instanceof_Object (get unsavedAuthorPost (rel_propertyName authorRelation)) = true /\
  getEntityIdMixedMap authorRelation
    (get unsavedAuthorPost (rel_propertyName authorRelation)) = Ok VUndefined /\
  get storedPost (rel_name authorRelation) = VNumber 8 /\
  ~ In authorRelation [].
Proof.
  assert (Hrels : buildDiffRelationalColumns
                    (post_subject unsavedAuthorPost storedPost) = Ok [])
    by (vm_compute; reflexivity).
  repeat (split; [first [exact Hrels|reflexivity]|]).
  exact (relation_object_without_id
           (post_subject unsavedAuthorPost storedPost)
           unsavedAuthorPost storedPost [] authorRelation
           eq_refl eq_refl Hrels eq_refl eq_refl).
Defined.
